(** * Image-classification helper: dataset construction and model assembly

    A shallow embedding of [src/ImageClassification/ImageClassification.ts]
    and of the record types of [@piximi/types] it consumes.

    Conventions.
    - An integer-valued JavaScript [number] (array positions, lengths, canvas
      and image dimensions, label indices) is a [Z].
    - The arithmetic of [imageToSquare] is carried out on [number], exact
      rationals extended with the IEEE values Infinity, -Infinity and NaN,
      so that a division by zero is visible.  Rounding of doubles and the
      sign of zero are not represented: an extent stated here is the one
      the code computes up to the rounding of two double operations.
    - Tensor entries are exact rationals ([Q]).
    - The browser, the image codec and the tensor runtime are not part of
      the repository.  What they compute from their arguments is a field of
      [Runtime]; where one of their operations refuses an argument (an empty
      list handed to [tf.concat], a number of units that is not positive
      handed to [tf.layers.dense], a zero-sized canvas handed to
      [drawImage]) the refusal is written out.
    - [async] functions live in the monad [M]: a journal of the calls made
      to the outside world, and a result that is a value or an exception. *)

From Stdlib Require Import ZArith QArith Qminmax List String Bool Lia Lqa.
From Stdlib Require Import Strings.Byte.
Import ListNotations.

Local Open Scope string_scope.
Local Open Scope list_scope.
Local Open Scope Z_scope.

(** ** Records of [@piximi/types] *)

Inductive Partition := Training | Validation | Test.

Module Category.
Record t := {
  color : string;
  description : string;
  identifier : string;
  index : Z;
  visible : bool
}.
End Category.

Module Score.
Record t := {
  categoryIdentifier : string;
  probability : Q
}.
End Score.

Module ImageVisualization.
Record t := {
  brightness : Q;
  visibleChannels : list Z;
  contrast : Q;
  visible : bool
}.
End ImageVisualization.

Module Image.
Record t := {
  categoryIdentifier : string;
  checksum : string;
  data : string;
  identifier : string;
  partition : Partition;
  scores : list Score.t;
  visualization : ImageVisualization.t
}.
End Image.

(** ** JavaScript numbers, as far as [imageToSquare] needs them *)

Inductive number :=
| Fin (q : Q)
| Infinity
| NegInfinity
| NaN.

Definition isFinite (n : number) : bool :=
  match n with Fin _ => true | _ => false end.

Definition Qzerob (q : Q) : bool := (Qnum q =? 0)%Z.
Definition Qposb (q : Q) : bool := (0 <? Qnum q)%Z.

(** [a / b] *)
Definition number_div (a b : number) : number :=
  match a, b with
  | NaN, _ | _, NaN => NaN
  | Fin x, Fin y =>
      if Qzerob y
      then (if Qzerob x then NaN else if Qposb x then Infinity else NegInfinity)
      else Fin (x / y)
  | Fin _, (Infinity | NegInfinity) => Fin 0
  | (Infinity | NegInfinity), (Infinity | NegInfinity) => NaN
  | Infinity, Fin y => if Qzerob y || Qposb y then Infinity else NegInfinity
  | NegInfinity, Fin y => if Qzerob y || Qposb y then NegInfinity else Infinity
  end.

(** [a * b] *)
Definition number_mul (a b : number) : number :=
  match a, b with
  | NaN, _ | _, NaN => NaN
  | Fin x, Fin y => Fin (x * y)
  | Infinity, Infinity | NegInfinity, NegInfinity => Infinity
  | Infinity, NegInfinity | NegInfinity, Infinity => NegInfinity
  | Infinity, Fin y | Fin y, Infinity =>
      if Qzerob y then NaN else if Qposb y then Infinity else NegInfinity
  | NegInfinity, Fin y | Fin y, NegInfinity =>
      if Qzerob y then NaN else if Qposb y then NegInfinity else Infinity
  end.

Definition of_int (z : Z) : number := Fin (inject_Z z).

(** ** Results and exceptions *)

Inductive Exception :=
| DOMException (name : string)
| Error (message : string).

Inductive outcome (A : Type) :=
| Returned (a : A)
| Thrown (e : Exception).
Arguments Returned {A} a.
Arguments Thrown {A} e.

(** ** The part of the DOM that [imageToSquare] touches *)

Module ImageJS.
(** A decoded image: its dimensions and its RGBA bytes. *)
Record Image := {
  width : Z;
  height : Z;
  data : list byte
}.
End ImageJS.

(** What a canvas or an image element shows.  [drawn] is the effect of one
    [drawImage(image, dx, dy, dWidth, dHeight)] whose arguments were all
    finite and whose source was usable. *)
Inductive Bitmap :=
| blank
| decoded (image : ImageJS.Image)
| drawn (under : Bitmap) (source : Bitmap) (sWidth sHeight : Z)
        (dx dy dWidth dHeight : Q).

Module HTMLImageElement.
Record t := {
  naturalWidth : Z;
  naturalHeight : Z;
  bitmap : Bitmap
}.
End HTMLImageElement.

Module HTMLCanvasElement.
Record t := {
  width : Z;
  height : Z;
  bitmap : Bitmap
}.

(** The value an [unsigned long] attribute limited to non-negative
    numbers takes when [value] is assigned to it: [value] modulo 2^32 when
    that is at most 2^31 - 1, the default of the attribute otherwise. *)
Definition dimension (value default : Z) : Z :=
  let u := value mod 4294967296 in
  if u <=? 2147483647 then u else default.

(** [canvas.width = w], [canvas.height = h]; the defaults are 300 and
    150. *)
Definition set_width (w : Z) (c : t) : t :=
  {| width := dimension w 300; height := height c; bitmap := bitmap c |}.
Definition set_height (h : Z) (c : t) : t :=
  {| width := width c; height := dimension h 150; bitmap := bitmap c |}.
End HTMLCanvasElement.

(** [HTMLImageElement | HTMLCanvasElement] *)
Inductive CanvasImageSource :=
| ImageElement (i : HTMLImageElement.t)
| CanvasElement (c : HTMLCanvasElement.t).

(** [document.createElement('canvas')]: 300 by 150, nothing painted. *)
Definition createElement_canvas : HTMLCanvasElement.t :=
  {| HTMLCanvasElement.width := 300;
     HTMLCanvasElement.height := 150;
     HTMLCanvasElement.bitmap := blank |}.

Definition to_Q (n : number) : Q :=
  match n with Fin q => q | _ => 0 end.

(** [context.drawImage(image, dx, dy, dWidth, dHeight)] on the 2D context
    of [canvas], as browsers run it.  A canvas source with a zero dimension
    raises InvalidStateError, whatever the other arguments.  Otherwise a
    non-finite argument makes the call return at once, an image element
    with a zero natural dimension is skipped, and any other source is
    painted. *)
Definition drawImage (canvas : HTMLCanvasElement.t) (image : CanvasImageSource)
           (dx dy dWidth dHeight : number) : outcome HTMLCanvasElement.t :=
  let finite :=
    isFinite dx && isFinite dy && isFinite dWidth && isFinite dHeight in
  let paint source sw sh :=
    {| HTMLCanvasElement.width := HTMLCanvasElement.width canvas;
       HTMLCanvasElement.height := HTMLCanvasElement.height canvas;
       HTMLCanvasElement.bitmap :=
         drawn (HTMLCanvasElement.bitmap canvas) source sw sh
               (to_Q dx) (to_Q dy) (to_Q dWidth) (to_Q dHeight) |} in
  match image with
  | CanvasElement c =>
      if (HTMLCanvasElement.width c =? 0) || (HTMLCanvasElement.height c =? 0)
      then Thrown (DOMException "InvalidStateError")
      else if negb finite then Returned canvas
      else Returned (paint (HTMLCanvasElement.bitmap c)
                           (HTMLCanvasElement.width c)
                           (HTMLCanvasElement.height c))
  | ImageElement i =>
      if negb finite then Returned canvas
      else if (HTMLImageElement.naturalWidth i =? 0)
              || (HTMLImageElement.naturalHeight i =? 0)
      then Returned canvas
      else Returned (paint (HTMLImageElement.bitmap i)
                           (HTMLImageElement.naturalWidth i)
                           (HTMLImageElement.naturalHeight i))
  end.

(** ** [imageToSquare] *)

(** The bitmap of the source handed to [drawImage]. *)
Definition source_bitmap (image : CanvasImageSource) : Bitmap :=
  match image with
  | ImageElement i => HTMLImageElement.bitmap i
  | CanvasElement c => HTMLCanvasElement.bitmap c
  end.

Record Dimensions := { width : Z; height : Z }.

(** The local values [scale], [width] and [height] of [imageToSquare]. *)
Definition dimensions_of (image : CanvasImageSource) : Dimensions :=
  match image with
  | ImageElement i =>
      {| width := HTMLImageElement.naturalWidth i;
         height := HTMLImageElement.naturalHeight i |}
  | CanvasElement c =>
      {| width := HTMLCanvasElement.width c;
         height := HTMLCanvasElement.height c |}
  end.

Definition scale_of (dimensions : Dimensions) (size : Z) : number :=
  number_div (of_int size)
             (of_int (Z.max (height dimensions) (width dimensions))).

Definition imageToSquare (image : CanvasImageSource) (size : Z)
  : outcome HTMLCanvasElement.t :=
  let dimensions := dimensions_of image in
  let scale := scale_of dimensions size in
  let width := number_mul scale (of_int (width dimensions)) in
  let height := number_mul scale (of_int (height dimensions)) in
  let canvas := createElement_canvas in
  let canvas := HTMLCanvasElement.set_width size canvas in
  let canvas := HTMLCanvasElement.set_height size canvas in
  drawImage canvas image (of_int 0) (of_int 0) width height.

(** ** The tensor runtime *)

Module tensorflow.

(** A tensor: its shape and its entries in row-major order. *)
Record Tensor := { shape : list Z; values : list Q }.

Definition sizeFromShape (shape : list Z) : Z := fold_right Z.mul 1 shape.

(** Size along the batch axis (axis 0). *)
Definition batch (t : Tensor) : Z := hd 0 (shape t).

Definition scalar (value : Q) : Tensor := {| shape := []; values := [value] |}.

(** Element-wise operation with a rank-0 right operand broadcast. *)
Definition broadcast (op : Q -> Q -> Q) (a b : Tensor) : Tensor :=
  match values b with
  | [c] => {| shape := shape a; values := map (fun v => op v c) (values a) |}
  | vb => {| shape := shape a;
             values := map (fun p => op (fst p) (snd p)) (combine (values a) vb) |}
  end.

Definition sub : Tensor -> Tensor -> Tensor := broadcast Qminus.
Definition div : Tensor -> Tensor -> Tensor := broadcast Qdiv.

(** [toFloat()]: the entries are kept; only the element type changes. *)
Definition toFloat (t : Tensor) : Tensor := t.

Definition byte_to_Q (b : byte) : Q := inject_Z (Z.of_N (Byte.to_N b)).

(** [tf.browser.fromPixels(canvas)] with the default three channels: of
    the RGBA bytes [vals] of the canvas, the alpha channel is dropped. *)
Definition fromPixels (vals : nat -> byte) (height width : Z) : Tensor :=
  {| shape := [height; width; 3];
     values :=
       flat_map (fun i => map (fun channel => byte_to_Q (vals (i * 4 + channel)%nat))
                              [0%nat; 1%nat; 2%nat])
                (seq 0 (Z.to_nat (height * width))) |}.

(** [reshape]: the number of entries must not change. *)
Definition reshape (t : Tensor) (newShape : list Z) : outcome Tensor :=
  if sizeFromShape (shape t) =? sizeFromShape newShape
  then Returned {| shape := newShape; values := values t |}
  else Thrown (Error "Size must match the product of shape").

Definition shape_eqb (a b : list Z) : bool :=
  (Nat.eqb (List.length a) (List.length b))
  && forallb (fun p => fst p =? snd p) (combine a b).

(** [tf.concat(tensors)] along axis 0.  The runtime asserts that it is
    given at least one tensor and that the tensors agree on every other
    axis. *)
Definition concat (tensors : list Tensor) : outcome Tensor :=
  match tensors with
  | [] => Thrown (Error "Pass at least one tensor to concat")
  | t :: _ =>
      if forallb (fun u => match shape u with
                           | [] => false
                           | _ :: rest => shape_eqb rest (tl (shape t))
                           end) tensors
      then Returned {| shape := fold_right Z.add 0 (map batch tensors) :: tl (shape t);
                       values := flat_map values tensors |}
      else Thrown (Error "Error in concat: shapes do not match")
  end.

Definition range (n : Z) : list Z := map Z.of_nat (seq 0 (Z.to_nat n)).

(** [tf.oneHot(indices, depth)]: one row per index, holding 1 at the
    index and 0 elsewhere; an index outside [0, depth) gives a row of
    zeros. *)
Definition oneHot_row (depth index : Z) : list Q :=
  map (fun j => if index =? j then 1%Q else 0%Q) (range depth).

Definition oneHot (indices : list Z) (depth : Z) : Tensor :=
  {| shape := [Z.of_nat (List.length indices); depth];
     values := flat_map (oneHot_row depth) indices |}.

(** [tf.tidy(fn)] returns what [fn] returns; the tensors it disposes of
    are not observable here. *)
Definition tidy {A : Type} (fn : A) : A := fn.

(** Entries [i * n, (i + 1) * n) of a tensor: for a tensor of batch items
    of [n] entries each, the item at position [i]. *)
Definition item (n : nat) (t : Tensor) (i : nat) : list Q :=
  firstn n (skipn (i * n) (values t)).

(** *** Layers and models *)

Record DenseLayerArgs := {
  units : Z;
  activation : string;
  kernelInitializer : string;
  useBias : bool
}.

Inductive Layer :=
| pretrained (name : string) (outputShape : list (option Z))
| flatten (inputShape : list (option Z))
| dense (args : DenseLayerArgs).

Record ModelCompileArgs := {
  loss : string;
  metrics : list string;
  optimizer : string
}.

Record LayersModel := {
  layers : list Layer;
  compiled : option ModelCompileArgs
}.

Record ModelFitArgs := {
  batchSize : option Z;
  epochs : option Z
}.

Record History := { history : list (string * list Q) }.

(** [tf.layers.dense(args)]: the number of units has to be a positive
    integer. *)
Definition layers_dense (args : DenseLayerArgs) : outcome Layer :=
  if 0 <? units args then Returned (dense args)
  else Thrown (Error "Expected units to be a positive integer").

Definition layer_name (l : Layer) : option string :=
  match l with pretrained name _ => Some name | _ => None end.

Definition has_name (name : string) (l : Layer) : bool :=
  match layer_name l with Some n => String.eqb n name | None => false end.

(** [model.getLayer(name)] *)
Definition getLayer (model : LayersModel) (name : string) : outcome Layer :=
  match find (has_name name) (layers model) with
  | Some l => Returned l
  | None => Thrown (Error "No such layer")
  end.

(** [layer.output.shape] *)
Definition output_shape (l : Layer) : list (option Z) :=
  match l with
  | pretrained _ s => s
  | flatten s => [None; Some (fold_right Z.mul 1 (map (fun d => match d with Some k => k | None => 1 end) s))]
  | dense a => [None; Some (units a)]
  end.

(** [tf.model({inputs: model.inputs, outputs: layer.output}).layers] for
    a network that is a chain of layers: the layers from the input up to
    and including the first one called [name]. *)
Fixpoint upto (name : string) (ls : list Layer) : list Layer :=
  match ls with
  | [] => []
  | l :: rest => if has_name name l then [l] else l :: upto name rest
  end.

Definition sequential (ls : list Layer) : LayersModel :=
  {| layers := ls; compiled := None |}.

Definition compile (model : LayersModel) (args : ModelCompileArgs) : LayersModel :=
  {| layers := layers model; compiled := Some args |}.

End tensorflow.
Import tensorflow.

(** ** The outside world and the monad of [async] functions *)

(** What the image codec, the browser and the tensor runtime answer. *)
Record Runtime := {
  (** [ImageJS.Image.load(data)] *)
  Image_load : string -> outcome ImageJS.Image;
  (** the RGBA bytes the browser holds for a canvas *)
  getImageData : HTMLCanvasElement.t -> nat -> byte;
  (** [tensorflow.loadLayersModel(resource)] *)
  loadLayersModel : string -> outcome LayersModel;
  (** [model.evaluate(x, y)] *)
  model_evaluate : LayersModel -> Tensor -> Tensor -> outcome (list Q);
  (** [model.fit(x, y, args)] *)
  model_fit : LayersModel -> Tensor -> Tensor -> ModelFitArgs -> outcome History
}.

(** The calls that leave the module, in the order they are made. *)
Inductive Call :=
| call_Image_load (data : string)
| call_alert (message : string)
| call_loadLayersModel (resource : string)
| call_evaluate (model : LayersModel) (x y : Tensor)
| call_fit (model : LayersModel) (x y : Tensor) (args : ModelFitArgs).

Definition M (A : Type) : Type := list Call -> outcome A * list Call.

Definition ret {A} (a : A) : M A := fun journal => (Returned a, journal).

Definition bind {A B} (m : M A) (k : A -> M B) : M B :=
  fun journal =>
    match m journal with
    | (Returned a, journal') => k a journal'
    | (Thrown e, journal') => (Thrown e, journal')
    end.

(** A call to the outside: entered in the journal, then answered. *)
Definition call {A} (c : Call) (answer : outcome A) : M A :=
  fun journal => (answer, journal ++ [c]).

(** A synchronous computation that may throw. *)
Definition lift {A} (o : outcome A) : M A := fun journal => (o, journal).

Notation "x <- m ;; k" := (bind m (fun x => k))
  (at level 61, m at next level, right associativity).
Notation "m ;;; k" := (bind m (fun _ => k))
  (at level 61, right associativity).

Definition and_then {A B} (o : outcome A) (k : A -> outcome B) : outcome B :=
  match o with
  | Returned a => k a
  | Thrown e => Thrown e
  end.

(** [for (const a of l) { s = body(s, a) }] *)
Fixpoint for_of {A S} (l : list A) (body : S -> A -> M S) (s : S) : M S :=
  match l with
  | [] => ret s
  | a :: rest => s' <- body s a ;; for_of rest body s'
  end.

(** ** [ImageClassification.ts] *)

(** [Array.prototype.findIndex]: the position of the first element that
    satisfies [p], or -1. *)
Fixpoint findIndex_from {A} (p : A -> bool) (l : list A) (k : Z) : Z :=
  match l with
  | [] => -1
  | a :: rest => if p a then k else findIndex_from p rest (k + 1)
  end.

Definition findIndex {A} (p : A -> bool) (l : list A) : Z := findIndex_from p l 0.

Definition findCategoryIndex (categories : list Category.t) (identifier : string) : Z :=
  findIndex (fun category => String.eqb (Category.identifier category) identifier)
            categories.

(** The identifier of the category of images that are not classified. *)
Definition unclassified : string := "00000000-0000-0000-0000-000000000000".

(** [data.getCanvas()] *)
Definition getCanvas (data : ImageJS.Image) : HTMLCanvasElement.t :=
  {| HTMLCanvasElement.width := ImageJS.width data;
     HTMLCanvasElement.height := ImageJS.height data;
     HTMLCanvasElement.bitmap := decoded data |}.

(** The result of [createDataset]. *)
Record Dataset := { success : bool; x : Tensor; y : Tensor }.

(** The chain [.toFloat().sub(scalar(127.5)).div(scalar(127.5))]. *)
Definition normalize (t : Tensor) : Tensor :=
  div (sub (toFloat t) (scalar (255 # 2))) (scalar (255 # 2)).

(** The labels pushed by the second loop of [createDataset]. *)
Definition labels (categories : list Category.t) (images : list Image.t) : list Z :=
  fold_left
    (fun ys image =>
       let categoryIndex :=
         findCategoryIndex categories (Image.categoryIdentifier image) in
       ys ++ [categoryIndex - 1])
    images [].

(** The filter at the head of [createDataset]. *)
Definition classified (images : list Image.t) : list Image.t :=
  filter (fun image =>
            negb (String.eqb (Image.categoryIdentifier image) unclassified))
         images.

Definition resource : string :=
  "https://storage.googleapis.com/tfjs-models/tfjs/mobilenet_v1_0.25_224/model.json".

(** [tensorflow.model({inputs: net.inputs, outputs: layer.output})] *)
Definition model (net : LayersModel) (layer : Layer) : LayersModel :=
  {| layers := match layer_name layer with
               | Some name => upto name (layers net)
               | None => layers net
               end;
     compiled := None |}.

(** [args ? args : {}] *)
Definition or_empty (args : option ModelFitArgs) : ModelFitArgs :=
  match args with
  | Some a => a
  | None => {| batchSize := None; epochs := None |}
  end.

Section Program.

Variable rt : Runtime.

Definition extracted (image : Image.t) : M Tensor :=
  data <- call (call_Image_load (Image.data image))
               (Image_load rt (Image.data image)) ;;
  lift (tidy
          (and_then (imageToSquare (CanvasElement (getCanvas data)) 224)
             (fun canvas =>
                reshape
                  (normalize
                     (fromPixels (getImageData rt canvas)
                                 (HTMLCanvasElement.height canvas)
                                 (HTMLCanvasElement.width canvas)))
                  [1; 224; 224; 3]))).

Definition createDataset (categories : list Category.t) (images : list Image.t)
  : M Dataset :=
  let images := classified images in
  xs <- for_of images
               (fun xs image => x <- extracted image ;; ret (xs ++ [x]))
               [] ;;
  let ys := labels categories images in
  x <- lift (tidy (concat xs)) ;;
  if Z.of_nat (List.length categories) - 1 <? 2 then
    call (call_alert "There must be at least two categories!") (Returned tt) ;;;
    ret {| success := false; x := x; y := x |}
  else
    let y := tidy (oneHot ys (Z.of_nat (List.length categories) - 1)) in
    ret {| success := true; x := x; y := y |}.

Definition createModel (classes units : Z) : M LayersModel :=
  mobilenet <- call (call_loadLayersModel resource) (loadLayersModel rt resource) ;;
  layer <- lift (getLayer mobilenet "conv_pw_13_relu") ;;
  let backbone := model mobilenet layer in
  let a := flatten (tl (output_shape layer)) in
  b <- lift (layers_dense {| units := units;
                             activation := "relu";
                             kernelInitializer := "varianceScaling";
                             useBias := true |}) ;;
  c <- lift (layers_dense {| units := classes;
                             kernelInitializer := "varianceScaling";
                             useBias := false;
                             activation := "softmax" |}) ;;
  let model := sequential (layers backbone ++ [a; b; c]) in
  let optimizer := "adam" in
  let model := compile model {| loss := "categoricalCrossentropy";
                                metrics := ["accuracy"];
                                optimizer := optimizer |} in
  ret model.

(** [undefined] is [None]. *)
Definition evaluate (images : list Image.t) (categories : list Category.t)
  : M (option (list Q)) :=
  model <- createModel (Z.of_nat (List.length categories) - 1) 100 ;;
  d <- createDataset categories images ;;
  if negb (success d) then ret None
  else
    r <- call (call_evaluate model (x d) (y d)) (model_evaluate rt model (x d) (y d)) ;;
    ret (Some r).

Definition fit (images : list Image.t) (categories : list Category.t)
           (args : option ModelFitArgs) : M (option History) :=
  model <- createModel (Z.of_nat (List.length categories) - 1) 100 ;;
  d <- createDataset categories images ;;
  if negb (success d) then ret None
  else
    r <- call (call_fit model (x d) (y d) (or_empty args))
              (model_fit rt model (x d) (y d) (or_empty args)) ;;
    ret (Some r).

End Program.

(** ** Vocabulary of the statements *)

(** Number of entries of one item of the input batch, 224 * 224 * 3. *)
Abbreviation item_size := (Z.to_nat (224 * 224) * 3)%nat (only parsing).

(** The codec reads the payload of [image] as a raster that has pixels. *)
Definition decodes (rt : Runtime) (image : Image.t) : Prop :=
  exists data,
    Image_load rt (Image.data image) = Returned data
    /\ 0 < ImageJS.width data /\ 0 < ImageJS.height data.

(** The number of images whose [categoryIdentifier] is not the identifier
    of the unclassified category, counted one image at a time. *)
Fixpoint count_classified (images : list Image.t) : nat :=
  match images with
  | [] => 0%nat
  | image :: rest =>
      if String.eqb (Image.categoryIdentifier image) unclassified
      then count_classified rest
      else S (count_classified rest)
  end.

(** Two images with the same payload and the same category. *)
Definition agree (a b : Image.t) : Prop :=
  Image.data a = Image.data b
  /\ Image.categoryIdentifier a = Image.categoryIdentifier b.

(** The calls that run the model. *)
Definition runs_model (c : Call) : bool :=
  match c with
  | call_evaluate _ _ _ | call_fit _ _ _ _ => true
  | _ => false
  end.

(** The classification head [createModel] appends to the pretrained layers. *)
Definition head (layer : Layer) (classes units : Z) : list Layer :=
  [ flatten (tl (output_shape layer));
    dense {| units := units; activation := "relu";
             kernelInitializer := "varianceScaling"; useBias := true |};
    dense {| units := classes; activation := "softmax";
             kernelInitializer := "varianceScaling"; useBias := false |} ].

(** The tensor [extracted] returns for [image], whatever the journal. *)
Definition extracted_tensor (rt : Runtime) (image : Image.t) : Tensor :=
  match fst (extracted rt image []) with
  | Returned t => t
  | Thrown _ => scalar 0
  end.

(** The input batch built from a list of images: one item per image, in
    the order of the list. *)
Definition inputs (rt : Runtime) (images : list Image.t) : Tensor :=
  {| shape := [Z.of_nat (List.length images); 224; 224; 3];
     values := flat_map values (map (extracted_tensor rt) images) |}.

(** The calls to the codec [createDataset] makes for a list of images. *)
Definition loads (images : list Image.t) : list Call :=
  map (fun image => call_Image_load (Image.data image)) images.

(** The model [createModel] assembles from the fetched network [net]
    truncated at [layer]. *)
Definition assembled (net : LayersModel) (layer : Layer) (classes units : Z)
  : LayersModel :=
  compile (sequential (layers (model net layer) ++ head layer classes units))
          {| loss := "categoricalCrossentropy";
             metrics := ["accuracy"];
             optimizer := "adam" |}.

(** What [fit] and [evaluate] do once the model is built. *)
Definition then_fit (rt : Runtime) (model : LayersModel)
           (images : list Image.t) (categories : list Category.t)
           (args : option ModelFitArgs) : M (option History) :=
  d <- createDataset rt categories images ;;
  if negb (success d) then ret None
  else
    r <- call (call_fit model (x d) (y d) (or_empty args))
              (model_fit rt model (x d) (y d) (or_empty args)) ;;
    ret (Some r).

Definition then_evaluate (rt : Runtime) (model : LayersModel)
           (images : list Image.t) (categories : list Category.t)
  : M (option (list Q)) :=
  d <- createDataset rt categories images ;;
  if negb (success d) then ret None
  else
    r <- call (call_evaluate model (x d) (y d))
              (model_evaluate rt model (x d) (y d)) ;;
    ret (Some r).

(** ** A small world to run the program in *)

Module Sample.

Definition picture : ImageJS.Image :=
  {| ImageJS.width := 2; ImageJS.height := 1;
     ImageJS.data := [xff; x00; x00; xff; x00; xff; x00; xff] |}.

Definition mobilenet : LayersModel :=
  {| layers := [ pretrained "conv1" [None; Some 112; Some 112; Some 8];
                 pretrained "conv_pw_13_relu" [None; Some 7; Some 7; Some 256];
                 pretrained "global_average_pooling2d_1" [None; Some 256];
                 pretrained "act_softmax" [None; Some 1000] ];
     compiled := None |}.

(** Every payload but the empty one decodes to [picture]; canvases read
    back black; the network is fetched; the model runs. *)
Definition runtime : Runtime :=
  {| Image_load := fun data =>
       if String.eqb data "" then Thrown (Error "unable to load image")
       else Returned picture;
     getImageData := fun _ _ => x00;
     loadLayersModel := fun _ => Returned mobilenet;
     model_evaluate := fun _ _ _ => Returned [0%Q; 0%Q];
     model_fit := fun _ _ _ _ => Returned {| history := [] |} |}.

Definition category (identifier : string) (index : Z) : Category.t :=
  {| Category.color := "#000000"; Category.description := identifier;
     Category.identifier := identifier; Category.index := index;
     Category.visible := true |}.

Definition image (data categoryIdentifier : string) (partition : Partition)
  : Image.t :=
  {| Image.categoryIdentifier := categoryIdentifier;
     Image.checksum := "";
     Image.data := data;
     Image.identifier := data;
     Image.partition := partition;
     Image.scores := [];
     Image.visualization :=
       {| ImageVisualization.brightness := 0;
          ImageVisualization.visibleChannels := [];
          ImageVisualization.contrast := 0;
          ImageVisualization.visible := true |} |}.

Definition cat : string := "cat".
Definition dog : string := "dog".
Definition bird : string := "bird".

Definition one_category : list Category.t :=
  [category unclassified 0; category cat 1].
Definition two_categories : list Category.t :=
  [category unclassified 0; category cat 1; category dog 2].

Definition cat_image : Image.t := image "cat.png" cat Training.
Definition dog_image : Image.t := image "dog.png" dog Validation.
Definition bird_image : Image.t := image "bird.png" bird Test.
Definition new_image : Image.t := image "new.png" unclassified Training.


End Sample.

(** Two categories with the same identifier, whatever their colour,
    description, index and visibility. *)
Definition same_identifier (a b : Category.t) : Prop :=
  Category.identifier a = Category.identifier b.

(** ** Further situations to run the program in *)

Module Cases.

(** An image whose payload the codec of [Sample.runtime] refuses. *)
Definition broken_image : Image.t := Sample.image "" Sample.cat Training.

(** The sample world without a network connection. *)
Definition offline : Runtime :=
  {| Image_load := Image_load Sample.runtime;
     getImageData := getImageData Sample.runtime;
     loadLayersModel := fun _ => Thrown (Error "Failed to fetch");
     model_evaluate := model_evaluate Sample.runtime;
     model_fit := model_fit Sample.runtime |}.

(** The sample world serving a network that lacks the layer looked up. *)
Definition truncated : Runtime :=
  {| Image_load := Image_load Sample.runtime;
     getImageData := getImageData Sample.runtime;
     loadLayersModel := fun _ =>
       Returned {| layers := [pretrained "conv1" [None; Some 112; Some 112; Some 8]];
                   compiled := None |};
     model_evaluate := model_evaluate Sample.runtime;
     model_fit := model_fit Sample.runtime |}.


(** A category list with no trainable category. *)
Definition no_trainable : list Category.t := [Sample.category unclassified 0].

(** A second picture, dark where [Sample.picture] is bright. *)
Definition dark : ImageJS.Image :=
  {| ImageJS.width := 3; ImageJS.height := 2;
     ImageJS.data := [x00; x00; x00; xff] |}.

(** The first byte of the image a canvas was drawn from. *)
Definition first_byte (canvas : HTMLCanvasElement.t) : byte :=
  match HTMLCanvasElement.bitmap canvas with
  | drawn _ (decoded image) _ _ _ _ _ _ => hd x00 (ImageJS.data image)
  | _ => x00
  end.

(** The sample world with a codec that tells the dog picture from the
    others and a browser whose canvases show what was drawn on them. *)
Definition vivid : Runtime :=
  {| Image_load := fun data =>
       if String.eqb data "" then Thrown (Error "unable to load image")
       else if String.eqb data "dog.png" then Returned dark
       else Returned Sample.picture;
     getImageData := fun canvas _ => first_byte canvas;
     loadLayersModel := loadLayersModel Sample.runtime;
     model_evaluate := model_evaluate Sample.runtime;
     model_fit := model_fit Sample.runtime |}.

(** A category list that does not start with the unclassified category. *)
Definition unconventional : list Category.t :=
  [Sample.category Sample.cat 0; Sample.category Sample.dog 1;
   Sample.category Sample.bird 2].

(** [Sample.two_categories] with every field but the identifier changed. *)
Definition repainted : list Category.t :=
  [ {| Category.color := "#ffffff"; Category.description := "none";
       Category.identifier := unclassified; Category.index := 7;
       Category.visible := false |};
    {| Category.color := "#ff0000"; Category.description := "felis";
       Category.identifier := Sample.cat; Category.index := 5;
       Category.visible := false |};
    {| Category.color := "#00ff00"; Category.description := "canis";
       Category.identifier := Sample.dog; Category.index := 0;
       Category.visible := true |} ].

End Cases.

(** * Properties *)

(** ** Geometry: [imageToSquare] *)

Section Geometry.

Lemma Qzerob_inject (z : Z) : Qzerob (inject_Z z) = (z =? 0).
Proof. reflexivity. Qed.


(** With positive dimensions the scale is an ordinary quotient. *)
Lemma scale_of_positive (d : Dimensions) (size : Z) :
  0 < Z.max (height d) (width d) ->
  scale_of d size
  = Fin (inject_Z size / inject_Z (Z.max (height d) (width d)))%Q.
Proof.
  intros Hm. unfold scale_of, of_int, number_div.
  rewrite Qzerob_inject.
  destruct (Z.eqb_spec (Z.max (height d) (width d)) 0); [lia | reflexivity].
Qed.




(** What [imageToSquare] returns for a source of positive dimensions. *)
Lemma imageToSquare_positive (image : CanvasImageSource) (size : Z) :
  0 < width (dimensions_of image) ->
  0 < height (dimensions_of image) ->
  imageToSquare image size
  = Returned
      {| HTMLCanvasElement.width := HTMLCanvasElement.dimension size 300;
         HTMLCanvasElement.height := HTMLCanvasElement.dimension size 150;
         HTMLCanvasElement.bitmap :=
           drawn blank (source_bitmap image)
                 (width (dimensions_of image)) (height (dimensions_of image))
                 0 0
                 (inject_Z size
                  / inject_Z (Z.max (height (dimensions_of image))
                                    (width (dimensions_of image)))
                  * inject_Z (width (dimensions_of image)))%Q
                 (inject_Z size
                  / inject_Z (Z.max (height (dimensions_of image))
                                    (width (dimensions_of image)))
                  * inject_Z (height (dimensions_of image)))%Q |}.
Proof.
  intros Hw Hh. unfold imageToSquare.
  rewrite scale_of_positive by lia.
  unfold of_int, number_mul, drawImage. cbn [isFinite andb negb].
  destruct image as [i | c]; cbn [dimensions_of width height] in *.
  - destruct (Z.eqb_spec (HTMLImageElement.naturalWidth i) 0); [lia |].
    destruct (Z.eqb_spec (HTMLImageElement.naturalHeight i) 0); [lia |].
    reflexivity.
  - destruct (Z.eqb_spec (HTMLCanvasElement.width c) 0); [lia |].
    destruct (Z.eqb_spec (HTMLCanvasElement.height c) 0); [lia |].
    reflexivity.
Qed.

End Geometry.

(** ** Lists, loops and the journal *)

Section Lists.

Context {A B : Type}.

(** In a concatenation of blocks of [n] entries, block [i] is found at
    entries [i * n, (i + 1) * n). *)
Lemma flat_map_block (f : A -> list B) (n : nat) :
  forall (l : list A) (i : nat) (a : A),
    (forall a', In a' l -> List.length (f a') = n) ->
    nth_error l i = Some a ->
    firstn n (skipn (i * n) (flat_map f l)) = f a.
Proof.
  induction l as [| a0 l IH]; intros i a Hlen Hnth.
  - destruct i; discriminate.
  - assert (H0 : List.length (f a0) = n) by (apply Hlen; left; reflexivity).
    destruct i as [| i]; cbn [nth_error] in Hnth.
    + injection Hnth as <-. cbn [Nat.mul skipn flat_map].
      rewrite firstn_app, H0, Nat.sub_diag, firstn_O, app_nil_r.
      rewrite <- H0. apply firstn_all.
    + cbn [flat_map]. rewrite skipn_app, H0.
      rewrite skipn_all2 by (rewrite H0; cbn [Nat.mul]; lia).
      replace (S i * n - n)%nat with (i * n)%nat by (cbn [Nat.mul]; lia).
      cbn [app]. apply IH; [| assumption].
      intros a' Ha'. apply Hlen. right. assumption.
Qed.

Lemma fold_left_push (g : A -> B) :
  forall (l : list A) (acc : list B),
    fold_left (fun ys a => ys ++ [g a]) l acc = acc ++ map g l.
Proof.
  induction l as [| a l IH]; intros acc; cbn [fold_left map].
  - now rewrite app_nil_r.
  - rewrite IH, <- app_assoc. reflexivity.
Qed.

(** A loop that pushes the result of [f], when every call of [f] returns
    and leaves one entry [c a] in the journal. *)
Lemma for_of_push (f : A -> M B) (c : A -> Call) (g : A -> B) :
  forall (l : list A) (acc : list B) (journal : list Call),
    (forall a j, In a l -> f a j = (Returned (g a), j ++ [c a])) ->
    for_of l (fun xs a => x <- f a ;; ret (xs ++ [x])) acc journal
    = (Returned (acc ++ map g l), journal ++ map c l).
Proof.
  induction l as [| a l IH]; intros acc journal Hf; cbn [for_of map].
  - unfold ret. now rewrite !app_nil_r.
  - unfold bind at 1. unfold bind at 1.
    rewrite Hf by (left; reflexivity). unfold ret at 1.
    rewrite IH by (intros; apply Hf; right; assumption).
    rewrite <- !app_assoc. reflexivity.
Qed.

End Lists.

(** ** The label indexer *)

Section LabelIndexer.

Context {A : Type} (p : A -> bool).

Lemma findIndex_from_absent :
  forall (l : list A) (k : Z),
    (forall a, In a l -> p a = false) -> findIndex_from p l k = -1.
Proof.
  induction l as [| a l IH]; intros k Hp; cbn [findIndex_from]; [reflexivity |].
  rewrite Hp by (left; reflexivity).
  apply IH. intros; apply Hp; right; assumption.
Qed.

(** When some element satisfies [p], the result is the position of the
    first one. *)
Lemma findIndex_from_present :
  forall (l : list A) (k : Z),
    (exists a, In a l /\ p a = true) ->
    exists (n : nat) (a : A),
      findIndex_from p l k = k + Z.of_nat n
      /\ nth_error l n = Some a /\ p a = true
      /\ (forall m b, (m < n)%nat -> nth_error l m = Some b -> p b = false).
Proof.
  induction l as [| a l IH]; intros k [a0 [Hin Ha0]]; [destruct Hin |].
  cbn [findIndex_from]. destruct (p a) eqn:Hpa.
  - exists 0%nat, a. repeat split; [lia | assumption | intros; lia].
  - destruct Hin as [-> | Hin]; [congruence |].
    destruct (IH (k + 1)) as (n & b & Hidx & Hnth & Hpb & Hfirst).
    { exists a0; split; assumption. }
    exists (S n), b. repeat split; [lia | assumption | assumption |].
    intros m b' Hm Hb'. destruct m as [| m]; cbn [nth_error] in Hb'.
    + injection Hb' as <-. assumption.
    + apply (Hfirst m); [lia | assumption].
Qed.

End LabelIndexer.

Lemma labels_map (categories : list Category.t) (images : list Image.t) :
  labels categories images
  = map (fun image =>
           findCategoryIndex categories (Image.categoryIdentifier image) - 1)
        images.
Proof. unfold labels. apply (fold_left_push _ images []). Qed.

Lemma findCategoryIndex_absent (categories : list Category.t) (identifier : string) :
  (forall category, In category categories ->
                    Category.identifier category <> identifier) ->
  findCategoryIndex categories identifier = -1.
Proof.
  intros Habs. apply findIndex_from_absent.
  intros category Hin. apply String.eqb_neq, Habs, Hin.
Qed.

Lemma findCategoryIndex_present (categories : list Category.t) (identifier : string) :
  (exists category, In category categories
                    /\ Category.identifier category = identifier) ->
  exists (n : nat) (category : Category.t),
    findCategoryIndex categories identifier = Z.of_nat n
    /\ nth_error categories n = Some category
    /\ Category.identifier category = identifier
    /\ (forall m other, (m < n)%nat -> nth_error categories m = Some other ->
                        Category.identifier other <> identifier).
Proof.
  intros [c [Hin Hc]].
  destruct (findIndex_from_present
              (fun category => String.eqb (Category.identifier category) identifier)
              categories 0) as (n & c' & Hidx & Hnth & Hp & Hfirst).
  { exists c. split; [assumption | now apply String.eqb_eq]. }
  exists n, c'. repeat split.
  - exact Hidx.
  - assumption.
  - now apply String.eqb_eq.
  - intros m other Hm Hother. apply String.eqb_neq. apply (Hfirst m); assumption.
Qed.

Lemma classified_length (images : list Image.t) :
  List.length (classified images) = count_classified images.
Proof.
  induction images as [| image images IH]; [reflexivity |].
  unfold classified in *. cbn [filter count_classified].
  destruct (String.eqb (Image.categoryIdentifier image) unclassified);
    cbn [negb List.length]; congruence.
Qed.

Lemma classified_In (images : list Image.t) (image : Image.t) :
  In image (classified images) <->
  In image images /\ Image.categoryIdentifier image <> unclassified.
Proof.
  unfold classified. rewrite filter_In, negb_true_iff, String.eqb_neq. reflexivity.
Qed.

(** ** Tensors *)

Section Tensors.

Lemma normalize_eq (t : Tensor) :
  normalize t
  = {| shape := shape t;
       values := map (fun v => (v / (255 # 2))%Q)
                     (map (fun v => (v - (255 # 2))%Q) (values t)) |}.
Proof. reflexivity. Qed.

Lemma entry_eq (v : Q) :
  ((v - (255 # 2)) / (255 # 2) == (v - (255 # 2)) * (2 # 255))%Q.
Proof. unfold Qdiv. reflexivity. Qed.

Lemma entry_range (v : Q) :
  (0 <= v <= 255)%Q -> (-1 <= (v - (255 # 2)) / (255 # 2) <= 1)%Q.
Proof. intros H. rewrite entry_eq. lra. Qed.

Lemma byte_to_Q_range (b : byte) : (0 <= byte_to_Q b <= 255)%Q.
Proof.
  unfold byte_to_Q. pose proof (Byte.to_N_bounded b) as Hb.
  split.
  - change 0%Q with (inject_Z 0). rewrite <- Zle_Qle. lia.
  - change 255%Q with (inject_Z 255). rewrite <- Zle_Qle. lia.
Qed.

Lemma fromPixels_shape (vals : nat -> byte) (h w : Z) :
  shape (fromPixels vals h w) = [h; w; 3].
Proof. reflexivity. Qed.

Lemma reshape_image (t : Tensor) :
  shape t = [224; 224; 3] ->
  reshape t [1; 224; 224; 3]
  = Returned {| shape := [1; 224; 224; 3]; values := values t |}.
Proof. intros H. unfold reshape. rewrite H. reflexivity. Qed.

Lemma normalize_length (t : Tensor) :
  List.length (values (normalize t)) = List.length (values t).
Proof. rewrite normalize_eq. cbn [values]. now rewrite !length_map. Qed.

Lemma fromPixels_length (vals : nat -> byte) (h w : Z) :
  List.length (values (fromPixels vals h w)) = (Z.to_nat (h * w) * 3)%nat.
Proof.
  unfold fromPixels. cbn [values].
  rewrite flat_map_constant_length with (c := 3%nat) by (intros; reflexivity).
  now rewrite length_seq.
Qed.

Lemma fromPixels_first (vals : nat -> byte) (h w : Z) :
  0 < h * w ->
  nth_error (values (fromPixels vals h w)) 0 = Some (byte_to_Q (vals 0%nat)).
Proof.
  intros H. unfold fromPixels. cbn [values].
  destruct (Z.to_nat (h * w)) as [| n] eqn:E; [lia |].
  reflexivity.
Qed.

Lemma fromPixels_range (vals : nat -> byte) (h w : Z) :
  Forall (fun v => (0 <= v <= 255)%Q) (values (fromPixels vals h w)).
Proof.
  apply Forall_forall. intros v Hv. unfold fromPixels in Hv. cbn [values] in Hv.
  apply in_flat_map in Hv. destruct Hv as (i & _ & Hv).
  apply in_map_iff in Hv. destruct Hv as (c & <- & _).
  apply byte_to_Q_range.
Qed.

Lemma normalize_range (t : Tensor) :
  Forall (fun v => (0 <= v <= 255)%Q) (values t) ->
  Forall (fun v => (-1 <= v <= 1)%Q) (values (normalize t)).
Proof.
  intros Ht. rewrite normalize_eq. cbn [values]. rewrite map_map.
  apply Forall_forall. intros q Hq.
  apply in_map_iff in Hq. destruct Hq as (v & <- & Hv).
  apply entry_range. revert v Hv. now apply Forall_forall.
Qed.

Lemma batch_sum (tensors : list Tensor) :
  (forall t, In t tensors -> batch t = 1) ->
  fold_right Z.add 0 (map batch tensors) = Z.of_nat (List.length tensors).
Proof.
  induction tensors as [| t ts IH]; intros H1; [reflexivity |].
  cbn [map fold_right List.length].
  rewrite H1 by (left; reflexivity).
  rewrite IH by (intros; apply H1; right; assumption). lia.
Qed.

(** Concatenating single-item batches of images. *)
Lemma concat_items (tensors : list Tensor) :
  tensors <> [] ->
  (forall t, In t tensors -> shape t = [1; 224; 224; 3]) ->
  concat tensors
  = Returned {| shape := [Z.of_nat (List.length tensors); 224; 224; 3];
                values := flat_map values tensors |}.
Proof.
  intros Hne Hshape. destruct tensors as [| t ts]; [congruence |].
  unfold concat.
  assert (Hall : forallb (fun u => match shape u with
                                   | [] => false
                                   | _ :: rest => shape_eqb rest (tl (shape t))
                                   end) (t :: ts) = true).
  { apply forallb_forall. intros u Hu.
    rewrite (Hshape u Hu), (Hshape t (or_introl eq_refl)). reflexivity. }
  rewrite Hall.
  rewrite batch_sum
    by (intros u Hu; unfold batch; rewrite (Hshape u Hu); reflexivity).
  rewrite (Hshape t (or_introl eq_refl)). reflexivity.
Qed.

Lemma oneHot_row_length (depth index : Z) :
  List.length (oneHot_row depth index) = Z.to_nat depth.
Proof. unfold oneHot_row, range. now rewrite !length_map, length_seq. Qed.

(** Entry [j] of a row of [oneHot]. *)
Lemma oneHot_row_nth (depth index j : Z) :
  0 <= j < depth ->
  nth_error (oneHot_row depth index) (Z.to_nat j)
  = Some (if index =? j then 1%Q else 0%Q).
Proof.
  intros Hj. unfold oneHot_row, range. rewrite map_map.
  rewrite nth_error_map.
  assert (Hnth : nth_error (seq 0 (Z.to_nat depth)) (Z.to_nat j) = Some (Z.to_nat j)).
  { rewrite nth_error_nth' with (d := 0%nat) by (rewrite length_seq; lia).
    rewrite seq_nth by lia. reflexivity. }
  rewrite Hnth. cbn [option_map]. rewrite Z2Nat.id by lia. reflexivity.
Qed.

Lemma oneHot_item (indices : list Z) (depth : Z) (i : nat) (index : Z) :
  nth_error indices i = Some index ->
  item (Z.to_nat depth) (oneHot indices depth) i = oneHot_row depth index.
Proof.
  intros Hnth. unfold item, oneHot. cbn [values].
  apply flat_map_block; [| assumption].
  intros; apply oneHot_row_length.
Qed.

End Tensors.

(** ** The dataset builder *)

Section DatasetBuilder.

Variable rt : Runtime.

(** [extracted] adds one call to the journal and is otherwise independent
    of it. *)
Lemma extracted_journal (image : Image.t) (journal : list Call) :
  extracted rt image journal
  = (fst (extracted rt image []),
     journal ++ [call_Image_load (Image.data image)]).
Proof.
  unfold extracted, bind, call, lift.
  destruct (Image_load rt (Image.data image)); reflexivity.
Qed.

(** The tensor [extracted] returns, from the pixels of the square canvas. *)
Lemma extracted_pixels (image : Image.t) (data : ImageJS.Image)
      (canvas : HTMLCanvasElement.t) :
  Image_load rt (Image.data image) = Returned data ->
  imageToSquare (CanvasElement (getCanvas data)) 224 = Returned canvas ->
  HTMLCanvasElement.width canvas = 224 ->
  HTMLCanvasElement.height canvas = 224 ->
  fst (extracted rt image [])
  = Returned {| shape := [1; 224; 224; 3];
                values := values (normalize
                                    (fromPixels (getImageData rt canvas) 224 224)) |}.
Proof.
  intros Hload Hcanvas Hw Hh.
  unfold extracted, bind, call, lift, tidy. rewrite Hload.
  cbv beta iota. cbn [fst].
  rewrite Hcanvas. cbn [and_then]. rewrite Hw, Hh.
  apply reshape_image. reflexivity.
Qed.

(** The first entry of the tensor of an image. *)
Lemma extracted_tensor_first (image : Image.t) (data : ImageJS.Image)
      (canvas : HTMLCanvasElement.t) :
  Image_load rt (Image.data image) = Returned data ->
  imageToSquare (CanvasElement (getCanvas data)) 224 = Returned canvas ->
  HTMLCanvasElement.width canvas = 224 ->
  HTMLCanvasElement.height canvas = 224 ->
  nth_error (values (extracted_tensor rt image)) 0
  = Some ((byte_to_Q (getImageData rt canvas 0%nat) - (255 # 2)) / (255 # 2))%Q.
Proof.
  intros Hload Hcanvas Hw Hh. unfold extracted_tensor.
  rewrite (extracted_pixels image data canvas Hload Hcanvas Hw Hh).
  cbn [values]. rewrite normalize_eq. cbn [values].
  rewrite map_map, nth_error_map, fromPixels_first by reflexivity.
  reflexivity.
Qed.

(** For an image that decodes, [extracted] returns a single-item batch
    whose entries lie between -1 and 1. *)
Lemma extracted_decodes (image : Image.t) :
  decodes rt image ->
  fst (extracted rt image []) = Returned (extracted_tensor rt image)
  /\ shape (extracted_tensor rt image) = [1; 224; 224; 3]
  /\ List.length (values (extracted_tensor rt image)) = item_size
  /\ Forall (fun v => (-1 <= v <= 1)%Q) (values (extracted_tensor rt image)).
Proof.
  intros (data & Hload & Hw & Hh).
  assert (Hex : exists vals,
             fst (extracted rt image [])
             = Returned {| shape := [1; 224; 224; 3];
                           values := values (normalize (fromPixels vals 224 224)) |}).
  { unfold extracted, bind, call, lift, tidy. rewrite Hload.
    cbv beta iota. cbn [fst].
    rewrite imageToSquare_positive by assumption.
    cbn [and_then]. eexists. apply reshape_image. reflexivity. }
  destruct Hex as (vals & Hex).
  unfold extracted_tensor. rewrite Hex.
  split; [reflexivity | split; [reflexivity | split]].
  - cbn [values]. rewrite normalize_length. apply fromPixels_length.
  - cbn [values]. apply normalize_range, fromPixels_range.
Qed.

Lemma extracted_returns (image : Image.t) (journal : list Call) :
  decodes rt image ->
  extracted rt image journal
  = (Returned (extracted_tensor rt image),
     journal ++ [call_Image_load (Image.data image)]).
Proof.
  intros Hd. rewrite extracted_journal.
  destruct (extracted_decodes image Hd) as (-> & _). reflexivity.
Qed.

(** The dataset [createDataset] returns when there is something to
    concatenate and every classified image decodes. *)
Lemma createDataset_returns (categories : list Category.t) (images : list Image.t)
      (journal : list Call) :
  classified images <> [] ->
  Forall (decodes rt) (classified images) ->
  createDataset rt categories images journal
  = if Z.of_nat (List.length categories) - 1 <? 2
    then (Returned {| success := false;
                      x := inputs rt (classified images);
                      y := inputs rt (classified images) |},
          journal ++ loads (classified images)
                  ++ [call_alert "There must be at least two categories!"])
    else (Returned {| success := true;
                      x := inputs rt (classified images);
                      y := oneHot (labels categories (classified images))
                                  (Z.of_nat (List.length categories) - 1) |},
          journal ++ loads (classified images)).
Proof.
  intros Hne Hdec. unfold createDataset.
  unfold bind at 1.
  rewrite (for_of_push (extracted rt)
                       (fun image => call_Image_load (Image.data image))
                       (extracted_tensor rt))
    by (intros a j Ha; apply extracted_returns;
        revert a Ha; now apply Forall_forall).
  cbn [app]. unfold bind at 1. unfold lift at 1, tidy.
  rewrite concat_items.
  - rewrite length_map. fold (loads (classified images)).
    destruct (Z.of_nat (List.length categories) - 1 <? 2).
    + unfold bind, call, ret. rewrite <- app_assoc. reflexivity.
    + reflexivity.
  - destruct (classified images); [congruence | discriminate].
  - intros t Ht. apply in_map_iff in Ht. destruct Ht as (image & <- & Hin).
    apply extracted_decodes. revert image Hin. now apply Forall_forall.
Qed.

Lemma createDataset_few (categories : list Category.t) (images : list Image.t)
      (journal : list Call) :
  Z.of_nat (List.length categories) - 1 < 2 ->
  classified images <> [] ->
  Forall (decodes rt) (classified images) ->
  createDataset rt categories images journal
  = (Returned {| success := false;
                 x := inputs rt (classified images);
                 y := inputs rt (classified images) |},
     journal ++ loads (classified images)
             ++ [call_alert "There must be at least two categories!"]).
Proof.
  intros Hlt Hne Hdec. rewrite createDataset_returns by assumption.
  apply Z.ltb_lt in Hlt. rewrite Hlt. reflexivity.
Qed.

Lemma createDataset_enough (categories : list Category.t) (images : list Image.t)
      (journal : list Call) :
  2 <= Z.of_nat (List.length categories) - 1 ->
  classified images <> [] ->
  Forall (decodes rt) (classified images) ->
  createDataset rt categories images journal
  = (Returned {| success := true;
                 x := inputs rt (classified images);
                 y := oneHot (labels categories (classified images))
                             (Z.of_nat (List.length categories) - 1) |},
     journal ++ loads (classified images)).
Proof.
  intros Hge Hne Hdec. rewrite createDataset_returns by assumption.
  apply Z.ltb_ge in Hge. rewrite Hge. reflexivity.
Qed.

(** With nothing to concatenate, [createDataset] throws. *)
Lemma createDataset_empty (categories : list Category.t) (images : list Image.t)
      (journal : list Call) :
  classified images = [] ->
  createDataset rt categories images journal
  = (Thrown (Error "Pass at least one tensor to concat"), journal).
Proof.
  intros He. unfold createDataset. rewrite He.
  cbn [for_of]. unfold bind, ret, lift, tidy. reflexivity.
Qed.

(** Item [i] of the input batch is the tensor of image [i]. *)
Lemma input_item (images : list Image.t) (i : nat) (image : Image.t) :
  Forall (decodes rt) images ->
  nth_error images i = Some image ->
  item item_size (inputs rt images) i = values (extracted_tensor rt image).
Proof.
  intros Hdec Hnth. unfold item, inputs. cbn [values].
  apply (flat_map_block values item_size
                        (map (extracted_tensor rt) images) i
                        (extracted_tensor rt image)).
  - intros t Ht. apply in_map_iff in Ht. destruct Ht as (im & <- & Hin).
    apply extracted_decodes. revert im Hin. now apply Forall_forall.
  - rewrite nth_error_map, Hnth. reflexivity.
Qed.

Lemma classified_all (images : list Image.t) :
  Forall (fun image => Image.categoryIdentifier image <> unclassified) images ->
  classified images = images.
Proof.
  induction 1 as [| image images Hi _ IH]; [reflexivity |].
  unfold classified in *. cbn [filter].
  apply String.eqb_neq in Hi. rewrite Hi. cbn [negb]. now rewrite IH.
Qed.

Lemma classified_decodes (images : list Image.t) :
  (forall image, In image images ->
                 Image.categoryIdentifier image <> unclassified ->
                 decodes rt image) ->
  Forall (decodes rt) (classified images).
Proof.
  intros H. apply Forall_forall. intros image Hin.
  apply classified_In in Hin. destruct Hin. now apply H.
Qed.

Lemma classified_nonempty (images : list Image.t) :
  (0 < count_classified images)%nat -> classified images <> [].
Proof.
  intros Hc He. rewrite <- classified_length, He in Hc. cbn in Hc. lia.
Qed.

End DatasetBuilder.

(** ** The model assembler and the facade *)

Section Facade.

Variable rt : Runtime.

Lemma createModel_returns (classes units : Z) (journal : list Call)
      (net : LayersModel) (layer : Layer) :
  0 < classes ->
  0 < units ->
  loadLayersModel rt resource = Returned net ->
  getLayer net "conv_pw_13_relu" = Returned layer ->
  createModel rt classes units journal
  = (Returned (assembled net layer classes units),
     journal ++ [call_loadLayersModel resource]).
Proof.
  intros Hc Hu Hload Hlayer.
  unfold createModel, bind, call, lift, ret, layers_dense.
  rewrite Hload, Hlayer. cbn [tensorflow.units].
  apply Z.ltb_lt in Hc. apply Z.ltb_lt in Hu. rewrite Hc, Hu. reflexivity.
Qed.

(** A layer of no unit cannot be made: the model is not built. *)
Lemma createModel_no_unit (classes units : Z) (journal : list Call)
      (net : LayersModel) (layer : Layer) :
  classes <= 0 \/ units <= 0 ->
  loadLayersModel rt resource = Returned net ->
  getLayer net "conv_pw_13_relu" = Returned layer ->
  createModel rt classes units journal
  = (Thrown (Error "Expected units to be a positive integer"),
     journal ++ [call_loadLayersModel resource]).
Proof.
  intros H Hload Hlayer.
  unfold createModel, bind, call, lift, ret, layers_dense.
  rewrite Hload, Hlayer. cbn [tensorflow.units].
  destruct (Z.ltb_spec 0 units) as [Hu | Hu].
  - destruct (Z.ltb_spec 0 classes) as [Hc | Hc]; [lia | reflexivity].
  - reflexivity.
Qed.

(** Building the model only ever adds the fetch of the network to the
    journal. *)
Lemma createModel_journal (classes units : Z) (journal : list Call) :
  snd (createModel rt classes units journal)
  = journal ++ [call_loadLayersModel resource].
Proof.
  unfold createModel, bind, call, lift, ret.
  destruct (loadLayersModel rt resource) as [net | e]; [| reflexivity].
  destruct (getLayer net "conv_pw_13_relu"); [| reflexivity].
  destruct (layers_dense _); [| reflexivity].
  destruct (layers_dense _); reflexivity.
Qed.

Lemma for_of_journal (images : list Image.t) :
  forall (acc : list Tensor) (journal : list Call),
    exists added,
      snd (for_of images
                  (fun xs image => x <- extracted rt image ;; ret (xs ++ [x]))
                  acc journal)
      = journal ++ added
      /\ forallb (fun c => negb (runs_model c)) added = true.
Proof.
  induction images as [| image images IH]; intros acc journal; cbn [for_of].
  - exists []. now rewrite app_nil_r.
  - unfold bind at 1. unfold bind at 1. rewrite extracted_journal.
    destruct (fst (extracted rt image [])) as [t | e].
    + unfold ret at 1.
      destruct (IH (acc ++ [t]) (journal ++ [call_Image_load (Image.data image)]))
        as (added & -> & Hadded).
      exists (call_Image_load (Image.data image) :: added).
      rewrite <- app_assoc. split; [reflexivity | exact Hadded].
    + exists [call_Image_load (Image.data image)]. split; reflexivity.
Qed.

(** Building the dataset never runs a model. *)
Lemma createDataset_journal (categories : list Category.t)
      (images : list Image.t) (journal : list Call) :
  exists added,
    snd (createDataset rt categories images journal) = journal ++ added
    /\ forallb (fun c => negb (runs_model c)) added = true.
Proof.
  unfold createDataset. unfold bind at 1.
  destruct (for_of_journal (classified images) [] journal) as (added & Hj & Hadded).
  destruct (for_of (classified images) _ [] journal) as [[xs | e] j1];
    cbn [snd] in Hj; subst j1.
  - unfold bind at 1. unfold lift at 1, tidy.
    destruct (concat xs) as [x0 | e].
    + destruct (Z.of_nat (List.length categories) - 1 <? 2).
      * exists (added ++ [call_alert "There must be at least two categories!"]).
        unfold bind, call, ret. cbn [snd]. rewrite <- app_assoc.
        split; [reflexivity |].
        rewrite forallb_app, Hadded. reflexivity.
      * exists added. split; [reflexivity | exact Hadded].
    + exists added. split; [reflexivity | exact Hadded].
  - exists added. split; [reflexivity | exact Hadded].
Qed.

(** With fewer than two trainable categories no dataset is marked as a
    success. *)
Lemma createDataset_insufficient (categories : list Category.t)
      (images : list Image.t) (journal journal' : list Call) (d : Dataset) :
  Z.of_nat (List.length categories) - 1 < 2 ->
  createDataset rt categories images journal = (Returned d, journal') ->
  success d = false.
Proof.
  intros Hlt. apply Z.ltb_lt in Hlt. unfold createDataset.
  unfold bind at 1.
  destruct (for_of (classified images) _ [] journal) as [[xs | e] j1];
    [| discriminate].
  unfold bind at 1. unfold lift at 1, tidy.
  destruct (concat xs) as [x0 | e]; [| discriminate].
  rewrite Hlt. unfold bind, call, ret.
  intros H. injection H as <- _. reflexivity.
Qed.

Lemma fit_unfold (images : list Image.t) (categories : list Category.t)
      (args : option ModelFitArgs) :
  fit rt images categories args
  = (model <- createModel rt (Z.of_nat (List.length categories) - 1) 100 ;;
     then_fit rt model images categories args).
Proof. reflexivity. Qed.

Lemma evaluate_unfold (images : list Image.t) (categories : list Category.t) :
  evaluate rt images categories
  = (model <- createModel rt (Z.of_nat (List.length categories) - 1) 100 ;;
     then_evaluate rt model images categories).
Proof. reflexivity. Qed.

(** With fewer than two trainable categories, what follows the assembly
    of the model never runs it. *)
Lemma then_fit_insufficient (model : LayersModel) (images : list Image.t)
      (categories : list Category.t) (args : option ModelFitArgs)
      (journal : list Call) :
  Z.of_nat (List.length categories) - 1 < 2 ->
  exists added,
    snd (then_fit rt model images categories args journal) = journal ++ added
    /\ forallb (fun c => negb (runs_model c)) added = true
    /\ (forall d journal',
           createDataset rt categories images journal = (Returned d, journal') ->
           then_fit rt model images categories args journal
           = (Returned None, journal')).
Proof.
  intros Hlt. unfold then_fit, bind.
  destruct (createDataset_journal categories images journal)
    as (added & Hj & Hadded).
  pose proof (createDataset_insufficient categories images journal) as Hins.
  destruct (createDataset rt categories images journal) as [[d | e] j1];
    cbn [snd] in Hj; subst j1; exists added.
  - rewrite (Hins _ d Hlt eq_refl). cbn [negb]. unfold ret.
    split; [reflexivity | split; [exact Hadded |]].
    intros d' j' H. injection H as <- <-. reflexivity.
  - split; [reflexivity | split; [exact Hadded | discriminate]].
Qed.

Lemma then_evaluate_insufficient (model : LayersModel) (images : list Image.t)
      (categories : list Category.t) (journal : list Call) :
  Z.of_nat (List.length categories) - 1 < 2 ->
  exists added,
    snd (then_evaluate rt model images categories journal) = journal ++ added
    /\ forallb (fun c => negb (runs_model c)) added = true
    /\ (forall d journal',
           createDataset rt categories images journal = (Returned d, journal') ->
           then_evaluate rt model images categories journal
           = (Returned None, journal')).
Proof.
  intros Hlt. unfold then_evaluate, bind.
  destruct (createDataset_journal categories images journal)
    as (added & Hj & Hadded).
  pose proof (createDataset_insufficient categories images journal) as Hins.
  destruct (createDataset rt categories images journal) as [[d | e] j1];
    cbn [snd] in Hj; subst j1; exists added.
  - rewrite (Hins _ d Hlt eq_refl). cbn [negb]. unfold ret.
    split; [reflexivity | split; [exact Hadded |]].
    intros d' j' H. injection H as <- <-. reflexivity.
  - split; [reflexivity | split; [exact Hadded | discriminate]].
Qed.

End Facade.

(** ** Calls made by the facade *)

Section FacadeCalls.

Variable rt : Runtime.

(** What follows the assembly of the model runs no model but the one it
    was given. *)
Lemma then_fit_calls (model : LayersModel) (images : list Image.t)
      (categories : list Category.t) (args : option ModelFitArgs)
      (journal : list Call) :
  exists added,
    snd (then_fit rt model images categories args journal) = journal ++ added
    /\ forall c, In c added -> runs_model c = true ->
                 exists x y a, c = call_fit model x y a.
Proof.
  unfold then_fit, bind.
  destruct (createDataset_journal rt categories images journal)
    as (added & Hj & Hadded).
  assert (Hno : forall c, In c added -> runs_model c = true -> False).
  { intros c Hc Hr. rewrite forallb_forall in Hadded.
    specialize (Hadded c Hc). rewrite Hr in Hadded. discriminate. }
  destruct (createDataset rt categories images journal) as [[d | e] j1];
    cbn [snd] in Hj; subst j1.
  - destruct (negb (success d)).
    + exists added. split; [reflexivity |].
      intros c Hc Hr. destruct (Hno c Hc Hr).
    + exists (added ++ [call_fit model (x d) (y d) (or_empty args)]).
      unfold call, ret.
      destruct (model_fit rt model (x d) (y d) (or_empty args));
        cbn [snd]; rewrite <- app_assoc; (split; [reflexivity |]);
        intros c Hc Hr; apply in_app_or in Hc;
        (destruct Hc as [Hc | [<- | []]]; [destruct (Hno c Hc Hr) |]);
        do 3 eexists; reflexivity.
  - exists added. split; [reflexivity |].
    intros c Hc Hr. destruct (Hno c Hc Hr).
Qed.

Lemma then_evaluate_calls (model : LayersModel) (images : list Image.t)
      (categories : list Category.t) (journal : list Call) :
  exists added,
    snd (then_evaluate rt model images categories journal) = journal ++ added
    /\ forall c, In c added -> runs_model c = true ->
                 exists x y, c = call_evaluate model x y.
Proof.
  unfold then_evaluate, bind.
  destruct (createDataset_journal rt categories images journal)
    as (added & Hj & Hadded).
  assert (Hno : forall c, In c added -> runs_model c = true -> False).
  { intros c Hc Hr. rewrite forallb_forall in Hadded.
    specialize (Hadded c Hc). rewrite Hr in Hadded. discriminate. }
  destruct (createDataset rt categories images journal) as [[d | e] j1];
    cbn [snd] in Hj; subst j1.
  - destruct (negb (success d)).
    + exists added. split; [reflexivity |].
      intros c Hc Hr. destruct (Hno c Hc Hr).
    + exists (added ++ [call_evaluate model (x d) (y d)]).
      unfold call, ret.
      destruct (model_evaluate rt model (x d) (y d));
        cbn [snd]; rewrite <- app_assoc; (split; [reflexivity |]);
        intros c Hc Hr; apply in_app_or in Hc;
        (destruct Hc as [Hc | [<- | []]]; [destruct (Hno c Hc Hr) |]);
        do 2 eexists; reflexivity.
  - exists added. split; [reflexivity |].
    intros c Hc Hr. destruct (Hno c Hc Hr).
Qed.

(** The journal of [fit] and of [evaluate]: the fetch of the network,
    then what follows the assembly. *)
Lemma fit_journal (images : list Image.t) (categories : list Category.t)
      (args : option ModelFitArgs) (journal : list Call) :
  fit rt images categories args journal
  = match fst (createModel rt (Z.of_nat (List.length categories) - 1) 100 journal) with
    | Returned model =>
        then_fit rt model images categories args
                 (journal ++ [call_loadLayersModel resource])
    | Thrown e => (Thrown e, journal ++ [call_loadLayersModel resource])
    end.
Proof.
  rewrite fit_unfold. unfold bind at 1.
  pose proof (createModel_journal rt (Z.of_nat (List.length categories) - 1)
                                  100 journal) as Hj.
  destruct (createModel rt _ 100 journal) as [[model | e] j1];
    cbn [snd fst] in *; subst j1; reflexivity.
Qed.

Lemma evaluate_journal (images : list Image.t) (categories : list Category.t)
      (journal : list Call) :
  evaluate rt images categories journal
  = match fst (createModel rt (Z.of_nat (List.length categories) - 1) 100 journal) with
    | Returned model =>
        then_evaluate rt model images categories
                      (journal ++ [call_loadLayersModel resource])
    | Thrown e => (Thrown e, journal ++ [call_loadLayersModel resource])
    end.
Proof.
  rewrite evaluate_unfold. unfold bind at 1.
  pose proof (createModel_journal rt (Z.of_nat (List.length categories) - 1)
                                  100 journal) as Hj.
  destruct (createModel rt _ 100 journal) as [[model | e] j1];
    cbn [snd fst] in *; subst j1; reflexivity.
Qed.

End FacadeCalls.

(** ** Fields the dataset does not read *)

Section Agreement.

Variable rt : Runtime.

Lemma bind_ext_l {A B} (m1 m2 : M A) (k : A -> M B) (journal : list Call) :
  m1 journal = m2 journal -> bind m1 k journal = bind m2 k journal.
Proof. intros H. unfold bind. now rewrite H. Qed.

Lemma bind_ext_r {A B} (m : M A) (k1 k2 : A -> M B) (journal : list Call) :
  (forall a j, k1 a j = k2 a j) -> bind m k1 journal = bind m k2 journal.
Proof. intros H. unfold bind. destruct (m journal) as [[a | e] j]; auto. Qed.

(** [extracted] reads the payload of the image and nothing else. *)
Lemma extracted_agree (a b : Image.t) :
  Image.data a = Image.data b -> extracted rt a = extracted rt b.
Proof. intros H. unfold extracted. now rewrite H. Qed.

Lemma classified_agree (l1 l2 : list Image.t) :
  Forall2 agree l1 l2 -> Forall2 agree (classified l1) (classified l2).
Proof.
  induction 1 as [| a b l1 l2 [Hd Hc] _ IH]; [constructor |].
  unfold classified in *. cbn [filter]. rewrite Hc.
  destruct (String.eqb (Image.categoryIdentifier b) unclassified); cbn [negb].
  - exact IH.
  - constructor; [split; assumption | exact IH].
Qed.

Lemma for_of_agree (l1 l2 : list Image.t) :
  Forall2 agree l1 l2 ->
  forall (acc : list Tensor) (journal : list Call),
    for_of l1 (fun xs image => x <- extracted rt image ;; ret (xs ++ [x]))
           acc journal
    = for_of l2 (fun xs image => x <- extracted rt image ;; ret (xs ++ [x]))
             acc journal.
Proof.
  induction 1 as [| a b l1 l2 [Hd _] _ IH]; intros acc journal; [reflexivity |].
  cbn [for_of]. rewrite (extracted_agree a b Hd).
  apply bind_ext_r. intros s j. apply IH.
Qed.

Lemma labels_agree (categories : list Category.t) (l1 l2 : list Image.t) :
  Forall2 agree l1 l2 -> labels categories l1 = labels categories l2.
Proof.
  intros H. rewrite !labels_map.
  induction H as [| a b l1 l2 [_ Hc] _ IH]; [reflexivity |].
  cbn [map]. now rewrite Hc, IH.
Qed.

Lemma createDataset_agree (categories : list Category.t) (l1 l2 : list Image.t)
      (journal : list Call) :
  Forall2 agree l1 l2 ->
  createDataset rt categories l1 journal = createDataset rt categories l2 journal.
Proof.
  intros H. apply classified_agree in H. unfold createDataset.
  rewrite (labels_agree categories _ _ H).
  apply bind_ext_l. now apply for_of_agree.
Qed.

End Agreement.

(** Every image of the sample world decodes. *)
Lemma sample_decodes (data categoryIdentifier : string) (partition : Partition) :
  data <> "" ->
  decodes Sample.runtime (Sample.image data categoryIdentifier partition).
Proof.
  intros Hd. exists Sample.picture. cbn [Sample.runtime Image_load Sample.image Image.data].
  apply String.eqb_neq in Hd. rewrite Hd.
  split; [reflexivity | split; reflexivity].
Qed.

(** ** The scenarios of the specification, run *)

(** Categories [unclassified, cat, dog] and two images labelled cat and dog:
    the label rows are [1, 0] and [0, 1], in the order of the images. *)
Example labels_cat_dog :
  labels Sample.two_categories (classified [Sample.cat_image; Sample.dog_image])
  = [0; 1]
  /\ oneHot (labels Sample.two_categories
                    (classified [Sample.cat_image; Sample.dog_image]))
            (Z.of_nat (List.length Sample.two_categories) - 1)
     = {| shape := [2; 2]; values := [1%Q; 0%Q; 0%Q; 1%Q] |}.
Proof. split; reflexivity. Qed.

(** An unknown category gives position -1, label -2 and a row of zeros. *)
Example labels_bird :
  findCategoryIndex Sample.two_categories "bird" = -1
  /\ labels Sample.two_categories [Sample.bird_image] = [-2]
  /\ oneHot [-2] 2 = {| shape := [1; 2]; values := [0%Q; 0%Q] |}.
Proof. repeat split; reflexivity. Qed.

(** A 2 by 1 source drawn into a square of side 224 keeps its aspect. *)
Example square_of_picture :
  imageToSquare (CanvasElement (getCanvas Sample.picture)) 224
  = Returned
      {| HTMLCanvasElement.width := 224;
         HTMLCanvasElement.height := 224;
         HTMLCanvasElement.bitmap :=
           drawn blank (decoded Sample.picture) 2 1 0 0
                 (inject_Z 224 / inject_Z 2 * inject_Z 2)%Q
                 (inject_Z 224 / inject_Z 2 * inject_Z 1)%Q |}.
Proof. reflexivity. Qed.

(** * The claims *)

(** C1, as the code has it.  For a category list of size C >= 3 whose
    position 0 holds the unclassified category, and a non-empty list of N
    images that decode, none of them unclassified and each with a category
    of the list, [createDataset] returns [success = true] and a label tensor
    of shape [N, C - 1] whose row [i] holds 1 at position [k - 1] and 0
    elsewhere, [k] being the first position of the category of image [i] in
    the category list. *)
Theorem createDataset_one_hot (rt : Runtime) (categories : list Category.t)
        (images : list Image.t) (journal : list Call) :
  3 <= Z.of_nat (List.length categories) ->
  (exists sentinel, nth_error categories 0 = Some sentinel
                    /\ Category.identifier sentinel = unclassified) ->
  images <> [] ->
  Forall (decodes rt) images ->
  Forall (fun image =>
            Image.categoryIdentifier image <> unclassified
            /\ exists category,
                In category categories
                /\ Category.identifier category = Image.categoryIdentifier image)
         images ->
  exists d journal',
    createDataset rt categories images journal = (Returned d, journal')
    /\ success d = true
    /\ shape (y d)
       = [Z.of_nat (List.length images); Z.of_nat (List.length categories) - 1]
    /\ forall i image,
        nth_error images i = Some image ->
        exists (k : nat) (category : Category.t),
          (1 <= k < List.length categories)%nat
          /\ nth_error categories k = Some category
          /\ Category.identifier category = Image.categoryIdentifier image
          /\ (forall m other,
                 (m < k)%nat -> nth_error categories m = Some other ->
                 Category.identifier other <> Image.categoryIdentifier image)
          /\ forall j,
              0 <= j < Z.of_nat (List.length categories) - 1 ->
              nth_error (item (Z.to_nat (Z.of_nat (List.length categories) - 1))
                              (y d) i)
                        (Z.to_nat j)
              = Some (if j =? Z.of_nat k - 1 then 1%Q else 0%Q).
Proof.
  intros HC (sentinel & Hs0 & Hsid) Hne Hdec Hcat.
  assert (Hall : classified images = images).
  { apply classified_all. eapply Forall_impl; [| exact Hcat]. now intros a [Ha _]. }
  eexists. eexists.
  split.
  { apply createDataset_enough; rewrite ?Hall; [lia | assumption | assumption]. }
  cbn [success y]. rewrite Hall.
  split; [reflexivity |].
  split.
  { unfold oneHot. cbn [shape]. rewrite labels_map, length_map. reflexivity. }
  intros i image Hi.
  assert (Him : In image images) by (eapply nth_error_In; eassumption).
  pose proof (proj1 (Forall_forall _ _) Hcat image Him) as [Hnot Hocc].
  destruct (findCategoryIndex_present categories _ Hocc)
    as (k & category & Hidx & Hk & Hid & Hfirst).
  exists k, category.
  assert (Hk1 : (1 <= k)%nat).
  { destruct k as [| k]; [| lia].
    rewrite Hs0 in Hk. injection Hk as <-. congruence. }
  assert (Hk2 : (k < List.length categories)%nat).
  { apply nth_error_Some. congruence. }
  split; [lia |].
  split; [assumption |].
  split; [assumption |].
  split; [assumption |].
  intros j Hj.
  rewrite (oneHot_item _ _ i (Z.of_nat k - 1)).
  - rewrite oneHot_row_nth by assumption. now rewrite Z.eqb_sym.
  - rewrite labels_map, nth_error_map, Hi. cbn [option_map]. now rewrite Hidx.
Qed.

Lemma createDataset_one_hot_witness :
  3 <= Z.of_nat (List.length Sample.two_categories)
  /\ (exists sentinel, nth_error Sample.two_categories 0 = Some sentinel
                       /\ Category.identifier sentinel = unclassified)
  /\ [Sample.cat_image; Sample.dog_image] <> []
  /\ Forall (decodes Sample.runtime) [Sample.cat_image; Sample.dog_image]
  /\ exists d journal',
      createDataset Sample.runtime Sample.two_categories
                    [Sample.cat_image; Sample.dog_image] []
      = (Returned d, journal')
      /\ success d = true
      /\ shape (y d) = [2; 2].
Proof.
  assert (H1 : 3 <= Z.of_nat (List.length Sample.two_categories)) by discriminate.
  assert (H2 : exists sentinel, nth_error Sample.two_categories 0 = Some sentinel
                                /\ Category.identifier sentinel = unclassified).
  { eexists. split; reflexivity. }
  assert (H3 : [Sample.cat_image; Sample.dog_image] <> []) by discriminate.
  assert (H4 : Forall (decodes Sample.runtime) [Sample.cat_image; Sample.dog_image]).
  { repeat constructor; apply sample_decodes; discriminate. }
  assert (H5 : Forall (fun image =>
                         Image.categoryIdentifier image <> unclassified
                         /\ exists category,
                             In category Sample.two_categories
                             /\ Category.identifier category
                                = Image.categoryIdentifier image)
                      [Sample.cat_image; Sample.dog_image]).
  { constructor; [| constructor; [| constructor]].
    - split; [discriminate |]. eexists. split; [right; left; reflexivity | reflexivity].
    - split; [discriminate |].
      eexists. split; [right; right; left; reflexivity | reflexivity]. }
  split; [exact H1 | split; [exact H2 | split; [exact H3 | split; [exact H4 |]]]].
  destruct (createDataset_one_hot Sample.runtime Sample.two_categories
                                  [Sample.cat_image; Sample.dog_image] []
                                  H1 H2 H3 H4 H5)
    as (d & journal' & Hd & Hs & Hshape & _).
  exists d, journal'. split; [exact Hd | split; [exact Hs | exact Hshape]].
Defined.

(** C1, as stated, fails on a category list of size 2: the unclassified
    category and one other.  The image is of the second category, and
    [createDataset] returns [success = false] with [y] set to [x]. *)
Lemma createDataset_two_listed :
  (2 <= List.length Sample.one_category)%nat
  /\ (exists sentinel, nth_error Sample.one_category 0 = Some sentinel
                       /\ Category.identifier sentinel = unclassified)
  /\ Image.categoryIdentifier Sample.cat_image <> unclassified
  /\ (exists category, In category Sample.one_category
                       /\ Category.identifier category
                          = Image.categoryIdentifier Sample.cat_image)
  /\ (exists d journal',
         createDataset Sample.runtime Sample.one_category [Sample.cat_image] []
         = (Returned d, journal')
         /\ success d = false /\ y d = x d)
  /\ ~ (exists d journal',
           createDataset Sample.runtime Sample.one_category [Sample.cat_image] []
           = (Returned d, journal')
           /\ success d = true).
Proof.
  assert (Hr : createDataset Sample.runtime Sample.one_category [Sample.cat_image] []
               = (Returned {| success := false;
                              x := inputs Sample.runtime (classified [Sample.cat_image]);
                              y := inputs Sample.runtime (classified [Sample.cat_image]) |},
                  [] ++ loads (classified [Sample.cat_image])
                     ++ [call_alert "There must be at least two categories!"])).
  { apply createDataset_few.
    - reflexivity.
    - discriminate.
    - apply classified_decodes. intros image [<- | []] _.
      apply sample_decodes. discriminate. }
  split; [cbn; lia |].
  split; [eexists; split; reflexivity |].
  split; [discriminate |].
  split; [eexists; split; [right; left; reflexivity | reflexivity] |].
  split.
  - eexists. eexists. split; [exact Hr | split; reflexivity].
  - intros (d & journal' & Hd & Hs). rewrite Hr in Hd.
    injection Hd as <- _. discriminate Hs.
Qed.

(** C2, as the code has it.  For every image list with at least one image
    that is not unclassified, all of them decoding, [createDataset] leaves
    out exactly the unclassified images: the input tensor it returns is the
    batch of the remaining images, and its batch size equals the number of
    images whose [categoryIdentifier] is not the unclassified one. *)
Theorem createDataset_batch (rt : Runtime) (categories : list Category.t)
        (images : list Image.t) (journal : list Call) :
  (0 < count_classified images)%nat ->
  (forall image, In image images ->
                 Image.categoryIdentifier image <> unclassified ->
                 decodes rt image) ->
  exists d journal',
    createDataset rt categories images journal = (Returned d, journal')
    /\ x d = inputs rt (classified images)
    /\ shape (x d) = [Z.of_nat (count_classified images); 224; 224; 3]
    /\ batch (x d) = Z.of_nat (count_classified images)
    /\ (forall image, In image (classified images) <->
                      In image images
                      /\ Image.categoryIdentifier image <> unclassified).
Proof.
  intros Hpos Hdec.
  pose proof (classified_nonempty images Hpos) as Hne.
  pose proof (classified_decodes rt images Hdec) as Hall.
  pose proof (createDataset_returns rt categories images journal Hne Hall) as Hr.
  destruct (Z.of_nat (List.length categories) - 1 <? 2);
    eexists; eexists; (split; [exact Hr |]); cbn [x];
    unfold inputs, batch; cbn [shape hd]; rewrite classified_length;
    (split; [reflexivity | split; [reflexivity | split; [reflexivity |]]]);
    intros image; apply classified_In.
Qed.

Lemma createDataset_batch_witness :
  (0 < count_classified [Sample.new_image; Sample.cat_image; Sample.new_image;
                         Sample.dog_image])%nat
  /\ (forall image,
         In image [Sample.new_image; Sample.cat_image; Sample.new_image;
                   Sample.dog_image] ->
         Image.categoryIdentifier image <> unclassified ->
         decodes Sample.runtime image)
  /\ exists d journal',
      createDataset Sample.runtime Sample.two_categories
                    [Sample.new_image; Sample.cat_image; Sample.new_image;
                     Sample.dog_image] []
      = (Returned d, journal')
      /\ batch (x d) = 2.
Proof.
  assert (H1 : (0 < count_classified [Sample.new_image; Sample.cat_image;
                                      Sample.new_image; Sample.dog_image])%nat)
    by (cbn; lia).
  assert (H2 : forall image,
             In image [Sample.new_image; Sample.cat_image; Sample.new_image;
                       Sample.dog_image] ->
             Image.categoryIdentifier image <> unclassified ->
             decodes Sample.runtime image).
  { intros image [<- | [<- | [<- | [<- | []]]]] _;
      apply sample_decodes; discriminate. }
  split; [exact H1 | split; [exact H2 |]].
  destruct (createDataset_batch Sample.runtime Sample.two_categories _ [] H1 H2)
    as (d & journal' & Hd & _ & _ & Hb & _).
  exists d, journal'. split; [exact Hd | exact Hb].
Defined.

(** C2, as stated, fails on a list whose only image is unclassified:
    nothing is left to concatenate and the call ends with the exception of
    [tf.concat]; no input tensor is returned. *)
Lemma createDataset_nothing_classified :
  count_classified [Sample.new_image] = 0%nat
  /\ createDataset Sample.runtime Sample.two_categories [Sample.new_image] []
     = (Thrown (Error "Pass at least one tensor to concat"), [])
  /\ ~ (exists d journal',
           createDataset Sample.runtime Sample.two_categories [Sample.new_image] []
           = (Returned d, journal')
           /\ batch (x d) = Z.of_nat (count_classified [Sample.new_image])).
Proof.
  assert (Hr : createDataset Sample.runtime Sample.two_categories
                             [Sample.new_image] []
               = (Thrown (Error "Pass at least one tensor to concat"), []))
    by (apply createDataset_empty; reflexivity).
  split; [reflexivity | split; [exact Hr |]].
  intros (d & journal' & Hd & _). rewrite Hr in Hd. discriminate Hd.
Qed.

(** C3, as the code has it.  When the category list has fewer than two
    trainable categories ([categories.length - 1 < 2]):
    - no dataset [createDataset] returns is marked as a success, and it
      does return one, with [success = false], when at least one image is
      not unclassified and those images decode;
    - [fit] and [evaluate] never run the model, whatever else happens;
    - with exactly one trainable category, the network fetched and holding
      the layer looked up, [fit] and [evaluate] return [undefined], having
      fetched the network, decoded the images and raised the alert;
    - with no trainable category the output layer would have no unit: the
      model is not built, and [fit] and [evaluate] end with the exception
      of the runtime right after the fetch. *)
Theorem insufficient_categories (rt : Runtime) (categories : list Category.t)
        (images : list Image.t) (args : option ModelFitArgs) (journal : list Call) :
  Z.of_nat (List.length categories) - 1 < 2 ->
  (forall d journal',
      createDataset rt categories images journal = (Returned d, journal') ->
      success d = false)
  /\ (classified images <> [] ->
      Forall (decodes rt) (classified images) ->
      exists d journal',
        createDataset rt categories images journal = (Returned d, journal')
        /\ success d = false)
  /\ (exists added,
         snd (fit rt images categories args journal) = journal ++ added
         /\ forallb (fun c => negb (runs_model c)) added = true)
  /\ (exists added,
         snd (evaluate rt images categories journal) = journal ++ added
         /\ forallb (fun c => negb (runs_model c)) added = true)
  /\ (forall net layer,
         loadLayersModel rt resource = Returned net ->
         getLayer net "conv_pw_13_relu" = Returned layer ->
         List.length categories = 2%nat ->
         classified images <> [] ->
         Forall (decodes rt) (classified images) ->
         fit rt images categories args journal
         = (Returned None,
            (journal ++ [call_loadLayersModel resource])
              ++ loads (classified images)
              ++ [call_alert "There must be at least two categories!"])
         /\ evaluate rt images categories journal
            = (Returned None,
               (journal ++ [call_loadLayersModel resource])
                 ++ loads (classified images)
                 ++ [call_alert "There must be at least two categories!"]))
  /\ (forall net layer,
         loadLayersModel rt resource = Returned net ->
         getLayer net "conv_pw_13_relu" = Returned layer ->
         (List.length categories <= 1)%nat ->
         exists e,
           fit rt images categories args journal
           = (Thrown e, journal ++ [call_loadLayersModel resource])
           /\ evaluate rt images categories journal
              = (Thrown e, journal ++ [call_loadLayersModel resource])).
Proof.
  intros Hlt.
  split; [intros d journal'; now apply createDataset_insufficient |].
  split.
  { intros Hne Hdec. eexists. eexists.
    split; [now apply createDataset_few | reflexivity]. }
  split.
  { rewrite fit_journal.
    destruct (fst (createModel rt _ 100 journal)) as [model | e].
    - destruct (then_fit_insufficient rt model images categories args
                  (journal ++ [call_loadLayersModel resource]) Hlt)
        as (added & -> & Hadded & _).
      exists (call_loadLayersModel resource :: added).
      rewrite <- app_assoc. split; [reflexivity | exact Hadded].
    - exists [call_loadLayersModel resource]. split; reflexivity. }
  split.
  { rewrite evaluate_journal.
    destruct (fst (createModel rt _ 100 journal)) as [model | e].
    - destruct (then_evaluate_insufficient rt model images categories
                  (journal ++ [call_loadLayersModel resource]) Hlt)
        as (added & -> & Hadded & _).
      exists (call_loadLayersModel resource :: added).
      rewrite <- app_assoc. split; [reflexivity | exact Hadded].
    - exists [call_loadLayersModel resource]. split; reflexivity. }
  split.
  - intros net layer Hnet Hlayer Hlen Hne Hdec.
    rewrite fit_journal, evaluate_journal.
    rewrite (createModel_returns rt _ 100 journal net layer)
      by (try assumption; lia).
    cbn [fst].
    pose proof (createDataset_few rt categories images
                  (journal ++ [call_loadLayersModel resource]) Hlt Hne Hdec) as Hd.
    split.
    + destruct (then_fit_insufficient rt
                  (assembled net layer (Z.of_nat (List.length categories) - 1) 100)
                  images categories args
                  (journal ++ [call_loadLayersModel resource]) Hlt)
        as (_ & _ & _ & Hret).
      apply (Hret _ _ Hd).
    + destruct (then_evaluate_insufficient rt
                  (assembled net layer (Z.of_nat (List.length categories) - 1) 100)
                  images categories
                  (journal ++ [call_loadLayersModel resource]) Hlt)
        as (_ & _ & _ & Hret).
      apply (Hret _ _ Hd).
  - intros net layer Hnet Hlayer Hlen.
    exists (Error "Expected units to be a positive integer").
    rewrite fit_journal, evaluate_journal.
    rewrite (createModel_no_unit rt _ 100 journal net layer)
      by (try assumption; left; lia).
    split; reflexivity.
Qed.

Lemma insufficient_categories_witness :
  Z.of_nat (List.length Sample.one_category) - 1 < 2
  /\ classified [Sample.cat_image] <> []
  /\ Forall (decodes Sample.runtime) (classified [Sample.cat_image])
  /\ (exists d journal',
         createDataset Sample.runtime Sample.one_category [Sample.cat_image] []
         = (Returned d, journal')
         /\ success d = false)
  /\ fit Sample.runtime [Sample.cat_image] Sample.one_category None []
     = (Returned None,
        [call_loadLayersModel resource; call_Image_load "cat.png";
         call_alert "There must be at least two categories!"])
  /\ evaluate Sample.runtime [Sample.cat_image] Sample.one_category []
     = (Returned None,
        [call_loadLayersModel resource; call_Image_load "cat.png";
         call_alert "There must be at least two categories!"]).
Proof.
  assert (H1 : Z.of_nat (List.length Sample.one_category) - 1 < 2) by reflexivity.
  assert (H2 : classified [Sample.cat_image] <> []) by discriminate.
  assert (H3 : Forall (decodes Sample.runtime) (classified [Sample.cat_image])).
  { apply classified_decodes. intros image [<- | []] _.
    apply sample_decodes. discriminate. }
  split; [exact H1 | split; [exact H2 | split; [exact H3 |]]].
  destruct (insufficient_categories Sample.runtime Sample.one_category
                                    [Sample.cat_image] None [] H1)
    as (_ & Hds & _ & _ & Hret & _).
  split; [exact (Hds H2 H3) |].
  exact (Hret Sample.mobilenet
              (pretrained "conv_pw_13_relu" [None; Some 7; Some 7; Some 256])
              eq_refl eq_refl eq_refl H2 H3).
Defined.

(** C3, as stated, fails when no image is left after the filter: with a
    single trainable category and an empty image list, [createDataset] ends
    with the exception of [tf.concat] instead of a result with
    [success = false], and [fit] ends with that exception instead of
    returning [undefined]. *)
Lemma createDataset_no_image_throws :
  Z.of_nat (List.length Sample.one_category) - 1 < 2
  /\ createDataset Sample.runtime Sample.one_category [] []
     = (Thrown (Error "Pass at least one tensor to concat"), [])
  /\ ~ (exists d journal',
           createDataset Sample.runtime Sample.one_category [] []
           = (Returned d, journal')
           /\ success d = false)
  /\ fit Sample.runtime [] Sample.one_category None []
     = (Thrown (Error "Pass at least one tensor to concat"),
        [call_loadLayersModel resource])
  /\ evaluate Sample.runtime [] Sample.one_category []
     = (Thrown (Error "Pass at least one tensor to concat"),
        [call_loadLayersModel resource]).
Proof.
  split; [reflexivity |].
  split; [reflexivity |].
  split; [| split; reflexivity].
  intros (d & journal' & Hd & _). discriminate Hd.
Qed.

(** C4, as the code has it.  An image that is not unclassified and whose
    [categoryIdentifier] is absent from the category list raises no error:
    [findCategoryIndex] answers -1, the label pushed for the image is -2,
    and [createDataset] returns.  With at least two trainable categories
    the result has [success = true] and the row of the image in the label
    tensor holds no 1. *)
Theorem createDataset_absent_category (rt : Runtime) (categories : list Category.t)
        (images : list Image.t) (journal : list Call) (i : nat) (image : Image.t) :
  Forall (decodes rt) (classified images) ->
  nth_error (classified images) i = Some image ->
  (forall category, In category categories ->
                    Category.identifier category <> Image.categoryIdentifier image) ->
  findCategoryIndex categories (Image.categoryIdentifier image) = -1
  /\ nth_error (labels categories (classified images)) i = Some (-2)
  /\ exists d journal',
      createDataset rt categories images journal = (Returned d, journal')
      /\ (2 <= Z.of_nat (List.length categories) - 1 ->
          success d = true
          /\ forall j,
              0 <= j < Z.of_nat (List.length categories) - 1 ->
              nth_error (item (Z.to_nat (Z.of_nat (List.length categories) - 1))
                              (y d) i)
                        (Z.to_nat j)
              = Some 0%Q).
Proof.
  intros Hdec Hi Habs.
  pose proof (findCategoryIndex_absent categories _ Habs) as Hidx.
  assert (Hlab : nth_error (labels categories (classified images)) i = Some (-2)).
  { rewrite labels_map, nth_error_map, Hi. cbn [option_map]. now rewrite Hidx. }
  assert (Hne : classified images <> []).
  { intros E. rewrite E in Hi. destruct i; discriminate. }
  split; [exact Hidx | split; [exact Hlab |]].
  pose proof (createDataset_returns rt categories images journal Hne Hdec) as Hr.
  destruct (Z.ltb_spec (Z.of_nat (List.length categories) - 1) 2) as [Hlt | Hge];
    eexists; eexists; (split; [exact Hr |]); cbn [success y]; intros H2.
  - lia.
  - split; [reflexivity |]. intros j Hj.
    rewrite (oneHot_item _ _ i (-2) Hlab).
    rewrite oneHot_row_nth by assumption.
    destruct (Z.eqb_spec (-2) j); [lia | reflexivity].
Qed.

Lemma createDataset_absent_category_witness :
  Forall (decodes Sample.runtime) (classified [Sample.cat_image; Sample.bird_image])
  /\ nth_error (classified [Sample.cat_image; Sample.bird_image]) 1
     = Some Sample.bird_image
  /\ (forall category,
         In category Sample.two_categories ->
         Category.identifier category
         <> Image.categoryIdentifier Sample.bird_image)
  /\ findCategoryIndex Sample.two_categories
                       (Image.categoryIdentifier Sample.bird_image) = -1
  /\ exists d journal',
      createDataset Sample.runtime Sample.two_categories
                    [Sample.cat_image; Sample.bird_image] []
      = (Returned d, journal')
      /\ success d = true.
Proof.
  assert (H1 : Forall (decodes Sample.runtime)
                      (classified [Sample.cat_image; Sample.bird_image])).
  { apply classified_decodes. intros image [<- | [<- | []]] _;
      apply sample_decodes; discriminate. }
  assert (H2 : nth_error (classified [Sample.cat_image; Sample.bird_image]) 1
               = Some Sample.bird_image) by reflexivity.
  assert (H3 : forall category,
             In category Sample.two_categories ->
             Category.identifier category
             <> Image.categoryIdentifier Sample.bird_image).
  { intros category [<- | [<- | [<- | []]]]; discriminate. }
  split; [exact H1 | split; [exact H2 | split; [exact H3 |]]].
  destruct (createDataset_absent_category
              Sample.runtime Sample.two_categories
              [Sample.cat_image; Sample.bird_image] [] 1 Sample.bird_image
              H1 H2 H3)
    as (Hidx & _ & d & journal' & Hd & Hsucc).
  split; [exact Hidx |].
  exists d, journal'. split; [exact Hd |].
  apply Hsucc. discriminate.
Defined.

(** C4, as stated, fails: for an image whose category is not in the list,
    [createDataset] does not throw; it returns a dataset marked as a
    success whose label row for the image is [0, 0]. *)
Lemma createDataset_bird_returns :
  Image.categoryIdentifier Sample.bird_image <> unclassified
  /\ (forall category,
         In category Sample.two_categories ->
         Category.identifier category
         <> Image.categoryIdentifier Sample.bird_image)
  /\ (exists d journal',
         createDataset Sample.runtime Sample.two_categories [Sample.bird_image] []
         = (Returned d, journal')
         /\ success d = true
         /\ values (y d) = [0%Q; 0%Q])
  /\ ~ (exists e journal',
           createDataset Sample.runtime Sample.two_categories [Sample.bird_image] []
           = (Thrown e, journal')).
Proof.
  assert (Hr : createDataset Sample.runtime Sample.two_categories
                             [Sample.bird_image] []
               = (Returned {| success := true;
                              x := inputs Sample.runtime (classified [Sample.bird_image]);
                              y := oneHot (labels Sample.two_categories
                                                  (classified [Sample.bird_image]))
                                          (Z.of_nat (List.length Sample.two_categories) - 1) |},
                  [] ++ loads (classified [Sample.bird_image]))).
  { apply createDataset_enough.
    - discriminate.
    - discriminate.
    - apply classified_decodes. intros image [<- | []] _.
      apply sample_decodes. discriminate. }
  split; [discriminate |].
  split; [intros category [<- | [<- | [<- | []]]]; discriminate |].
  split.
  - eexists. eexists. split; [exact Hr | split; reflexivity].
  - intros (e & journal' & He). rewrite Hr in He. discriminate He.
Qed.

(** C5.  For an image that decodes, the tensor [extracted] returns holds,
    entry by entry and in the same order, the channel values [p] read from
    the 224 by 224 canvas of [imageToSquare], each sent to
    [(p - 127.5) / 127.5].  The values read lie between 0 and 255 and the
    entries between -1 and 1; the map sends 0 to -1, 255 to 1 and 127.5 to
    0.  (Entries are exact rationals.) *)
Theorem extracted_normalizes (rt : Runtime) (image : Image.t) (journal : list Call) :
  decodes rt image ->
  exists (data : ImageJS.Image) (canvas : HTMLCanvasElement.t) (t : Tensor),
    Image_load rt (Image.data image) = Returned data
    /\ imageToSquare (CanvasElement (getCanvas data)) 224 = Returned canvas
    /\ extracted rt image journal
       = (Returned t, journal ++ [call_Image_load (Image.data image)])
    /\ values t
       = map (fun p => ((p - (255 # 2)) / (255 # 2))%Q)
             (values (fromPixels (getImageData rt canvas) 224 224))
    /\ Forall (fun p => (0 <= p <= 255)%Q)
              (values (fromPixels (getImageData rt canvas) 224 224))
    /\ Forall (fun q => (-1 <= q <= 1)%Q) (values t)
    /\ (forall p, (0 <= p <= 255 -> -1 <= (p - (255 # 2)) / (255 # 2) <= 1)%Q)
    /\ (forall p, (p == 0 -> (p - (255 # 2)) / (255 # 2) == -1)%Q)
    /\ (forall p, (p == 255 -> (p - (255 # 2)) / (255 # 2) == 1)%Q)
    /\ (forall p, (p == 255 # 2 -> (p - (255 # 2)) / (255 # 2) == 0)%Q).
Proof.
  intros (data & Hload & Hw & Hh).
  pose proof (imageToSquare_positive (CanvasElement (getCanvas data)) 224 Hw Hh)
    as Hcanvas.
  pose proof (extracted_pixels rt image data _ Hload Hcanvas eq_refl eq_refl)
    as Hfst.
  eexists data, _, _.
  split; [exact Hload |].
  split; [exact Hcanvas |].
  split; [rewrite extracted_journal, Hfst; reflexivity |].
  cbn [values].
  split; [rewrite normalize_eq; cbn [values]; apply map_map |].
  split; [apply fromPixels_range |].
  split; [apply normalize_range, fromPixels_range |].
  split; [intros p; apply entry_range |].
  split; [| split]; intros p E; rewrite entry_eq; lra.
Qed.

Lemma extracted_normalizes_witness :
  decodes Cases.vivid Sample.dog_image
  /\ exists (canvas : HTMLCanvasElement.t) (t : Tensor),
      imageToSquare (CanvasElement (getCanvas Cases.dark)) 224 = Returned canvas
      /\ extracted Cases.vivid Sample.dog_image []
         = (Returned t, [call_Image_load "dog.png"])
      /\ values t
         = map (fun p => ((p - (255 # 2)) / (255 # 2))%Q)
               (values (fromPixels (getImageData Cases.vivid canvas) 224 224)).
Proof.
  assert (H : decodes Cases.vivid Sample.dog_image).
  { exists Cases.dark. split; [reflexivity | split; reflexivity]. }
  split; [exact H |].
  destruct (extracted_normalizes Cases.vivid Sample.dog_image [] H)
    as (data & canvas & t & Hload & Hcanvas & Ht & Hv & _).
  injection Hload as <-.
  exists canvas, t. split; [exact Hcanvas | split; [exact Ht | exact Hv]].
Defined.







(** C8, as the code has it.  When the network is fetched and has the
    layer looked up, [createModel classes units], for positive [classes]
    and [units], returns the pretrained layers followed by a flatten layer,
    a dense layer of [units] units with ReLU activation and bias, and a
    dense layer of [classes] units with softmax activation and no bias.
    With at least one trainable category ([categories.length >= 2]), every
    call of [fit] and of [evaluate] fetches the network anew and builds
    that model with [categories.length - 1] classes and 100 hidden units;
    it is the only model they ever run. *)
Theorem fresh_model (rt : Runtime) (images : list Image.t)
        (categories : list Category.t) (args : option ModelFitArgs)
        (journal : list Call) (net : LayersModel) (layer : Layer)
        (classes units : Z) :
  loadLayersModel rt resource = Returned net ->
  getLayer net "conv_pw_13_relu" = Returned layer ->
  0 < classes ->
  0 < units ->
  (2 <= List.length categories)%nat ->
  createModel rt classes units journal
  = (Returned (assembled net layer classes units),
     journal ++ [call_loadLayersModel resource])
  /\ layers (assembled net layer classes units)
     = layers (model net layer)
       ++ [ flatten (tl (output_shape layer));
            dense {| units := units; activation := "relu";
                     kernelInitializer := "varianceScaling"; useBias := true |};
            dense {| units := classes; activation := "softmax";
                     kernelInitializer := "varianceScaling"; useBias := false |} ]
  /\ fit rt images categories args journal
     = then_fit rt (assembled net layer (Z.of_nat (List.length categories) - 1) 100)
                images categories args
                (journal ++ [call_loadLayersModel resource])
  /\ evaluate rt images categories journal
     = then_evaluate rt (assembled net layer (Z.of_nat (List.length categories) - 1) 100)
                     images categories
                     (journal ++ [call_loadLayersModel resource])
  /\ (exists added,
         snd (fit rt images categories args journal)
         = journal ++ call_loadLayersModel resource :: added
         /\ forall c, In c added -> runs_model c = true ->
                      exists x y a,
                        c = call_fit (assembled net layer
                                        (Z.of_nat (List.length categories) - 1) 100)
                                     x y a)
  /\ (exists added,
         snd (evaluate rt images categories journal)
         = journal ++ call_loadLayersModel resource :: added
         /\ forall c, In c added -> runs_model c = true ->
                      exists x y,
                        c = call_evaluate (assembled net layer
                                             (Z.of_nat (List.length categories) - 1) 100)
                                          x y).
Proof.
  intros Hnet Hlayer Hc Hu Hlen.
  split; [now apply createModel_returns |].
  split; [reflexivity |].
  rewrite fit_journal, evaluate_journal.
  rewrite (createModel_returns rt _ 100 journal net layer)
    by (try assumption; lia).
  cbn [fst].
  split; [reflexivity |].
  split; [reflexivity |].
  split.
  - destruct (then_fit_calls rt
                (assembled net layer (Z.of_nat (List.length categories) - 1) 100)
                images categories args
                (journal ++ [call_loadLayersModel resource]))
      as (added & -> & Hadded).
    exists added. rewrite <- app_assoc. split; [reflexivity | exact Hadded].
  - destruct (then_evaluate_calls rt
                (assembled net layer (Z.of_nat (List.length categories) - 1) 100)
                images categories
                (journal ++ [call_loadLayersModel resource]))
      as (added & -> & Hadded).
    exists added. rewrite <- app_assoc. split; [reflexivity | exact Hadded].
Qed.

Lemma fresh_model_witness :
  loadLayersModel Sample.runtime resource = Returned Sample.mobilenet
  /\ getLayer Sample.mobilenet "conv_pw_13_relu"
     = Returned (pretrained "conv_pw_13_relu" [None; Some 7; Some 7; Some 256])
  /\ 0 < Z.of_nat (List.length Sample.two_categories) - 1
  /\ 0 < 100
  /\ (2 <= List.length Sample.two_categories)%nat
  /\ layers (assembled Sample.mobilenet
                       (pretrained "conv_pw_13_relu" [None; Some 7; Some 7; Some 256])
                       (Z.of_nat (List.length Sample.two_categories) - 1) 100)
     = [ pretrained "conv1" [None; Some 112; Some 112; Some 8];
         pretrained "conv_pw_13_relu" [None; Some 7; Some 7; Some 256];
         flatten [Some 7; Some 7; Some 256];
         dense {| units := 100; activation := "relu";
                  kernelInitializer := "varianceScaling"; useBias := true |};
         dense {| units := 2; activation := "softmax";
                  kernelInitializer := "varianceScaling"; useBias := false |} ]
  /\ fit Sample.runtime [Sample.cat_image; Sample.dog_image]
         Sample.two_categories None []
     = then_fit Sample.runtime
                (assembled Sample.mobilenet
                           (pretrained "conv_pw_13_relu"
                                       [None; Some 7; Some 7; Some 256])
                           (Z.of_nat (List.length Sample.two_categories) - 1) 100)
                [Sample.cat_image; Sample.dog_image] Sample.two_categories None
                ([] ++ [call_loadLayersModel resource]).
Proof.
  assert (H1 : loadLayersModel Sample.runtime resource = Returned Sample.mobilenet)
    by reflexivity.
  assert (H2 : getLayer Sample.mobilenet "conv_pw_13_relu"
               = Returned (pretrained "conv_pw_13_relu"
                                      [None; Some 7; Some 7; Some 256]))
    by reflexivity.
  assert (H3 : 0 < Z.of_nat (List.length Sample.two_categories) - 1)
    by reflexivity.
  assert (H4 : 0 < 100) by reflexivity.
  assert (H5 : (2 <= List.length Sample.two_categories)%nat) by (cbn; lia).
  split; [exact H1 | split; [exact H2 | split; [exact H3 |
    split; [exact H4 | split; [exact H5 |]]]]].
  destruct (fresh_model Sample.runtime [Sample.cat_image; Sample.dog_image]
                        Sample.two_categories None [] Sample.mobilenet _
                        (Z.of_nat (List.length Sample.two_categories) - 1) 100
                        H1 H2 H3 H4 H5)
    as (_ & Hlayers & Hfit & _).
  split; [exact Hlayers | exact Hfit].
Defined.

(** C8, as stated, fails for a category list without a trainable category:
    the output layer would have [categories.length - 1 = 0] units, the
    runtime refuses to make it, and [fit] and [evaluate] end with its
    exception without a model having been built. *)
Lemma no_model_without_category :
  loadLayersModel Sample.runtime resource = Returned Sample.mobilenet
  /\ getLayer Sample.mobilenet "conv_pw_13_relu"
     = Returned (pretrained "conv_pw_13_relu" [None; Some 7; Some 7; Some 256])
  /\ Z.of_nat (List.length Cases.no_trainable) - 1 = 0
  /\ ~ (exists built journal',
           createModel Sample.runtime
                       (Z.of_nat (List.length Cases.no_trainable) - 1) 100 []
           = (Returned built, journal'))
  /\ (exists e,
         createModel Sample.runtime
                     (Z.of_nat (List.length Cases.no_trainable) - 1) 100 []
         = (Thrown e, [call_loadLayersModel resource])
         /\ fit Sample.runtime [Sample.cat_image] Cases.no_trainable None []
            = (Thrown e, [call_loadLayersModel resource])
         /\ evaluate Sample.runtime [Sample.cat_image] Cases.no_trainable []
            = (Thrown e, [call_loadLayersModel resource])).
Proof.
  split; [reflexivity | split; [reflexivity | split; [reflexivity |]]].
  split.
  - intros (built & journal' & H). discriminate H.
  - eexists. split; [reflexivity | split; reflexivity].
Qed.

(** C9.  When at least one image is left after the filter and those
    images decode, [createDataset] hands them to the codec in the order of
    the list and returns a dataset in which, at every position [i], item
    [i] of the input tensor is the tensor extracted from image [i].  With
    at least two trainable categories the label tensor is the one-hot
    encoding of the label vector, whose entry [i] is the label of the same
    image [i], so that row [i] of the label tensor is the row of that
    label; with fewer the label tensor is the input tensor itself. *)
Theorem createDataset_pairing (rt : Runtime) (categories : list Category.t)
        (images : list Image.t) (journal : list Call) :
  classified images <> [] ->
  Forall (decodes rt) (classified images) ->
  exists d journal' rest,
    createDataset rt categories images journal = (Returned d, journal')
    /\ journal' = journal ++ loads (classified images) ++ rest
    /\ (forall c, In c rest -> c = call_alert "There must be at least two categories!")
    /\ (2 <= Z.of_nat (List.length categories) - 1 ->
        success d = true
        /\ y d = oneHot (labels categories (classified images))
                        (Z.of_nat (List.length categories) - 1))
    /\ (Z.of_nat (List.length categories) - 1 < 2 ->
        success d = false /\ y d = x d)
    /\ forall i image,
        nth_error (classified images) i = Some image ->
        nth_error (loads (classified images)) i
        = Some (call_Image_load (Image.data image))
        /\ (forall j, extracted rt image j
                      = (Returned (extracted_tensor rt image),
                         j ++ [call_Image_load (Image.data image)]))
        /\ item item_size (x d) i = values (extracted_tensor rt image)
        /\ nth_error (labels categories (classified images)) i
           = Some (findCategoryIndex categories (Image.categoryIdentifier image) - 1)
        /\ (2 <= Z.of_nat (List.length categories) - 1 ->
            item (Z.to_nat (Z.of_nat (List.length categories) - 1)) (y d) i
            = oneHot_row (Z.of_nat (List.length categories) - 1)
                         (findCategoryIndex categories
                                            (Image.categoryIdentifier image) - 1)).
Proof.
  intros Hne Hdec.
  pose proof (createDataset_returns rt categories images journal Hne Hdec) as Hr.
  assert (Hpos : forall i image,
             nth_error (classified images) i = Some image ->
             nth_error (loads (classified images)) i
             = Some (call_Image_load (Image.data image))
             /\ (forall j, extracted rt image j
                           = (Returned (extracted_tensor rt image),
                              j ++ [call_Image_load (Image.data image)]))
             /\ item item_size (inputs rt (classified images)) i
                = values (extracted_tensor rt image)
             /\ nth_error (labels categories (classified images)) i
                = Some (findCategoryIndex categories
                                          (Image.categoryIdentifier image) - 1)).
  { intros i image Hi.
    split; [unfold loads; rewrite nth_error_map, Hi; reflexivity |].
    split.
    { intros j. apply extracted_returns.
      apply (proj1 (Forall_forall _ _) Hdec). eapply nth_error_In; eassumption. }
    split; [now apply input_item |].
    rewrite labels_map, nth_error_map, Hi. reflexivity. }
  destruct (Z.ltb_spec (Z.of_nat (List.length categories) - 1) 2) as [Hlt | Hge].
  - exists {| success := false; x := inputs rt (classified images);
              y := inputs rt (classified images) |}.
    eexists. exists [call_alert "There must be at least two categories!"].
    split; [exact Hr |].
    split; [reflexivity |].
    split; [intros c [<- | []]; reflexivity |].
    cbn [x y success].
    split; [intros H2; lia |].
    split; [intros _; split; reflexivity |].
    intros i image Hi.
    destruct (Hpos i image Hi) as (Hc & He & Hx & Hl).
    split; [exact Hc | split; [exact He | split; [exact Hx | split; [exact Hl |]]]].
    intros H2. lia.
  - exists {| success := true; x := inputs rt (classified images);
              y := oneHot (labels categories (classified images))
                          (Z.of_nat (List.length categories) - 1) |}.
    eexists. exists [].
    split; [exact Hr |].
    split; [now rewrite app_nil_r |].
    split; [intros c [] |].
    cbn [x y success].
    split; [intros _; split; reflexivity |].
    split; [intros H2; lia |].
    intros i image Hi.
    destruct (Hpos i image Hi) as (Hc & He & Hx & Hl).
    split; [exact Hc | split; [exact He | split; [exact Hx | split; [exact Hl |]]]].
    intros _. now apply oneHot_item.
Qed.

Lemma createDataset_pairing_witness :
  classified [Sample.dog_image; Sample.new_image; Sample.cat_image] <> []
  /\ Forall (decodes Cases.vivid)
            (classified [Sample.dog_image; Sample.new_image; Sample.cat_image])
  /\ exists d journal',
      createDataset Cases.vivid Sample.two_categories
                    [Sample.dog_image; Sample.new_image; Sample.cat_image] []
      = (Returned d, journal')
      /\ nth_error (item item_size (x d) 0) 0
         = Some ((byte_to_Q x00 - (255 # 2)) / (255 # 2))%Q
      /\ nth_error (item item_size (x d) 1) 0
         = Some ((byte_to_Q xff - (255 # 2)) / (255 # 2))%Q
      /\ item 2 (y d) 0 = [0%Q; 1%Q]
      /\ item 2 (y d) 1 = [1%Q; 0%Q].
Proof.
  assert (H1 : classified [Sample.dog_image; Sample.new_image; Sample.cat_image] <> [])
    by discriminate.
  assert (Hdog : decodes Cases.vivid Sample.dog_image).
  { exists Cases.dark. split; [reflexivity | split; reflexivity]. }
  assert (Hcat : decodes Cases.vivid Sample.cat_image).
  { exists Sample.picture. split; [reflexivity | split; reflexivity]. }
  assert (H2 : Forall (decodes Cases.vivid)
                      (classified [Sample.dog_image; Sample.new_image;
                                   Sample.cat_image])).
  { apply classified_decodes.
    intros image [<- | [<- | [<- | []]]] Hn;
      [exact Hdog | destruct Hn; reflexivity | exact Hcat]. }
  split; [exact H1 | split; [exact H2 |]].
  destruct (createDataset_pairing Cases.vivid Sample.two_categories
              [Sample.dog_image; Sample.new_image; Sample.cat_image] [] H1 H2)
    as (d & journal' & rest & Hd & _ & _ & _ & _ & Hpos).
  destruct (Hpos 0%nat Sample.dog_image eq_refl) as (_ & _ & Hx0 & _ & Hy0).
  destruct (Hpos 1%nat Sample.cat_image eq_refl) as (_ & _ & Hx1 & _ & Hy1).
  exists d, journal'.
  split; [exact Hd |].
  split.
  { rewrite Hx0.
    exact (extracted_tensor_first
             Cases.vivid Sample.dog_image Cases.dark _ eq_refl
             (imageToSquare_positive (CanvasElement (getCanvas Cases.dark)) 224
                                     eq_refl eq_refl)
             eq_refl eq_refl). }
  split.
  { rewrite Hx1.
    exact (extracted_tensor_first
             Cases.vivid Sample.cat_image Sample.picture _ eq_refl
             (imageToSquare_positive (CanvasElement (getCanvas Sample.picture)) 224
                                     eq_refl eq_refl)
             eq_refl eq_refl). }
  assert (Hge : 2 <= Z.of_nat (List.length Sample.two_categories) - 1)
    by discriminate.
  split; [exact (Hy0 Hge) | exact (Hy1 Hge)].
Defined.

(** C10.  Two image lists that agree, image by image, on [data] and on
    [categoryIdentifier] give the same result and the same calls, for
    [createDataset], for [fit] and for [evaluate], whatever their
    partitions, scores, checksums, identifiers and visualizations: those
    fields are not read. *)
Theorem unread_fields (rt : Runtime) (categories : list Category.t)
        (images1 images2 : list Image.t) (args : option ModelFitArgs)
        (journal : list Call) :
  Forall2 agree images1 images2 ->
  createDataset rt categories images1 journal
  = createDataset rt categories images2 journal
  /\ fit rt images1 categories args journal
     = fit rt images2 categories args journal
  /\ evaluate rt images1 categories journal
     = evaluate rt images2 categories journal.
Proof.
  intros H.
  split; [now apply createDataset_agree |].
  split.
  - rewrite !fit_unfold. apply bind_ext_r. intros model j.
    unfold then_fit. apply bind_ext_l. now apply createDataset_agree.
  - rewrite !evaluate_unfold. apply bind_ext_r. intros model j.
    unfold then_evaluate. apply bind_ext_l. now apply createDataset_agree.
Qed.

Lemma unread_fields_witness :
  Forall2 agree
          [Sample.image "cat.png" Sample.cat Training;
           Sample.image "dog.png" Sample.dog Training]
          [ {| Image.categoryIdentifier := Sample.cat;
               Image.checksum := "9f86d081";
               Image.data := "cat.png";
               Image.identifier := "another identifier";
               Image.partition := Validation;
               Image.scores := [ {| Score.categoryIdentifier := Sample.dog;
                                    Score.probability := 9 # 10 |} ];
               Image.visualization :=
                 {| ImageVisualization.brightness := 1;
                    ImageVisualization.visibleChannels := [0; 2];
                    ImageVisualization.contrast := 3 # 2;
                    ImageVisualization.visible := false |} |};
            Sample.image "dog.png" Sample.dog Test ]
  /\ fit Sample.runtime
         [Sample.image "cat.png" Sample.cat Training;
          Sample.image "dog.png" Sample.dog Training]
         Sample.two_categories None []
     = fit Sample.runtime
           [ {| Image.categoryIdentifier := Sample.cat;
                Image.checksum := "9f86d081";
                Image.data := "cat.png";
                Image.identifier := "another identifier";
                Image.partition := Validation;
                Image.scores := [ {| Score.categoryIdentifier := Sample.dog;
                                     Score.probability := 9 # 10 |} ];
                Image.visualization :=
                  {| ImageVisualization.brightness := 1;
                     ImageVisualization.visibleChannels := [0; 2];
                     ImageVisualization.contrast := 3 # 2;
                     ImageVisualization.visible := false |} |};
             Sample.image "dog.png" Sample.dog Test ]
           Sample.two_categories None [].
Proof.
  assert (H : Forall2 agree
                [Sample.image "cat.png" Sample.cat Training;
                 Sample.image "dog.png" Sample.dog Training]
                [ {| Image.categoryIdentifier := Sample.cat;
                     Image.checksum := "9f86d081";
                     Image.data := "cat.png";
                     Image.identifier := "another identifier";
                     Image.partition := Validation;
                     Image.scores := [ {| Score.categoryIdentifier := Sample.dog;
                                          Score.probability := 9 # 10 |} ];
                     Image.visualization :=
                       {| ImageVisualization.brightness := 1;
                          ImageVisualization.visibleChannels := [0; 2];
                          ImageVisualization.contrast := 3 # 2;
                          ImageVisualization.visible := false |} |};
                  Sample.image "dog.png" Sample.dog Test ]).
  { repeat constructor. }
  split; [exact H |].
  destruct (unread_fields Sample.runtime Sample.two_categories _ _ None [] H)
    as (_ & Hfit & _).
  exact Hfit.
Defined.

(** * Further properties of the code *)

(** ** The label indexer *)

Lemma identifier_listed_dec (categories : list Category.t) (identifier : string) :
  (exists category, In category categories
                    /\ Category.identifier category = identifier)
  \/ (forall category, In category categories ->
                       Category.identifier category <> identifier).
Proof.
  induction categories as [| c categories IH].
  - right. intros category [].
  - destruct (String.eqb_spec (Category.identifier c) identifier) as [E | N].
    + left. exists c. split; [left; reflexivity | exact E].
    + destruct IH as [(c' & Hin & Hc') | Habs].
      * left. exists c'. split; [right; exact Hin | exact Hc'].
      * right. intros category [<- | Hin]; [exact N | now apply Habs].
Qed.

(** X1.  [findCategoryIndex] answers -1 or a position of the list; -1
    exactly when no category of the list has the identifier; and a position
    [k] is the first one whose category has the identifier. *)
Theorem findCategoryIndex_position (categories : list Category.t)
        (identifier : string) :
  -1 <= findCategoryIndex categories identifier < Z.of_nat (List.length categories)
  /\ (findCategoryIndex categories identifier = -1 <->
      forall category, In category categories ->
                       Category.identifier category <> identifier)
  /\ (forall k : nat,
         findCategoryIndex categories identifier = Z.of_nat k ->
         exists category,
           nth_error categories k = Some category
           /\ Category.identifier category = identifier
           /\ forall m other,
               (m < k)%nat -> nth_error categories m = Some other ->
               Category.identifier other <> identifier).
Proof.
  destruct (identifier_listed_dec categories identifier) as [Hocc | Habs].
  - destruct (findCategoryIndex_present categories identifier Hocc)
      as (n & category & Hidx & Hn & Hid & Hfirst).
    assert (Hlt : (n < List.length categories)%nat)
      by (apply nth_error_Some; congruence).
    split; [lia |].
    split.
    + split; [lia |]. intros Habs.
      destruct Hocc as (c & Hin & Hc). destruct (Habs c Hin Hc).
    + intros k Hk. assert (k = n) by lia. subst k.
      exists category. split; [assumption | split; assumption].
  - pose proof (findCategoryIndex_absent categories identifier Habs) as Hidx.
    split; [lia |].
    split; [split; [intros _; exact Habs | intros _; exact Hidx] |].
    intros k Hk. lia.
Qed.

Lemma findCategoryIndex_position_witness :
  findCategoryIndex Sample.two_categories Sample.dog = Z.of_nat 2
  /\ exists category,
      nth_error Sample.two_categories 2 = Some category
      /\ Category.identifier category = Sample.dog.
Proof.
  assert (H : findCategoryIndex Sample.two_categories Sample.dog = Z.of_nat 2)
    by reflexivity.
  split; [exact H |].
  destruct (findCategoryIndex_position Sample.two_categories Sample.dog)
    as (_ & _ & Hpos).
  destruct (Hpos 2%nat H) as (category & Hn & Hid & _).
  exists category. split; [exact Hn | exact Hid].
Defined.

(** ** The dataset builder *)

Section DatasetCalls.

Variable rt : Runtime.

(** One turn of the loop over the images. *)
Lemma for_of_step (image : Image.t) (images : list Image.t)
      (acc : list Tensor) (journal : list Call) :
  for_of (image :: images)
         (fun xs image => x <- extracted rt image ;; ret (xs ++ [x]))
         acc journal
  = match fst (extracted rt image []) with
    | Returned t =>
        for_of images
               (fun xs image => x <- extracted rt image ;; ret (xs ++ [x]))
               (acc ++ [t]) (journal ++ [call_Image_load (Image.data image)])
    | Thrown e => (Thrown e, journal ++ [call_Image_load (Image.data image)])
    end.
Proof.
  cbn [for_of]. unfold bind at 1. unfold bind at 1. rewrite extracted_journal.
  destruct (fst (extracted rt image [])); reflexivity.
Qed.

(** The loop over the images hands a prefix of the list to the codec, the
    whole list when it completes. *)
Lemma for_of_loads (images : list Image.t) :
  forall (acc : list Tensor) (journal : list Call),
    exists k : nat,
      snd (for_of images
                  (fun xs image => x <- extracted rt image ;; ret (xs ++ [x]))
                  acc journal)
      = journal ++ loads (firstn k images)
      /\ forall xs,
          fst (for_of images
                      (fun xs image => x <- extracted rt image ;; ret (xs ++ [x]))
                      acc journal)
          = Returned xs ->
          k = List.length images.
Proof.
  induction images as [| image images IH]; intros acc journal.
  - exists 0%nat. cbn [for_of]. unfold ret, loads. cbn [firstn map snd].
    split; [now rewrite app_nil_r | intros; reflexivity].
  - rewrite for_of_step.
    destruct (fst (extracted rt image [])) as [t | e].
    + destruct (IH (acc ++ [t]) (journal ++ [call_Image_load (Image.data image)]))
        as (k & Hj & Hk).
      exists (S k). rewrite Hj. unfold loads. cbn [firstn map List.length].
      rewrite <- app_assoc. split; [reflexivity |].
      intros xs Hxs. f_equal. now apply (Hk xs).
    + exists 1%nat. unfold loads. cbn [firstn map snd fst].
      split; [reflexivity | discriminate].
Qed.

(** A loop that pushes the result of [f] stops at the first call of [f]
    that throws. *)
Lemma for_of_push_throws {A B} (f : A -> M B) (c : A -> Call) (g : A -> B) :
  forall (l1 : list A) (a : A) (l2 : list A) (e : Exception)
         (acc : list B) (journal : list Call),
    (forall a' j, In a' l1 -> f a' j = (Returned (g a'), j ++ [c a'])) ->
    (forall j, f a j = (Thrown e, j ++ [c a])) ->
    for_of (l1 ++ a :: l2) (fun xs a => x <- f a ;; ret (xs ++ [x])) acc journal
    = (Thrown e, journal ++ map c l1 ++ [c a]).
Proof.
  induction l1 as [| a1 l1 IH]; intros a l2 e acc journal Hf Ha; cbn [for_of map app].
  - unfold bind at 1. unfold bind at 1. rewrite Ha. reflexivity.
  - unfold bind at 1. unfold bind at 1.
    rewrite Hf by (left; reflexivity). unfold ret at 1.
    rewrite (IH a l2 e) by (intros; auto; apply Hf; right; assumption).
    rewrite <- !app_assoc. reflexivity.
Qed.

Lemma extracted_throws (image : Image.t) (e : Exception) (journal : list Call) :
  Image_load rt (Image.data image) = Thrown e ->
  extracted rt image journal
  = (Thrown e, journal ++ [call_Image_load (Image.data image)]).
Proof. intros H. unfold extracted, bind, call. now rewrite H. Qed.

Lemma createDataset_stops (categories : list Category.t) (images : list Image.t)
      (journal : list Call) (l1 : list Image.t) (image : Image.t)
      (l2 : list Image.t) (e : Exception) :
  classified images = l1 ++ image :: l2 ->
  Forall (decodes rt) l1 ->
  Image_load rt (Image.data image) = Thrown e ->
  createDataset rt categories images journal
  = (Thrown e, journal ++ loads l1 ++ [call_Image_load (Image.data image)]).
Proof.
  intros Hsplit Hdec Hload. unfold createDataset. rewrite Hsplit.
  unfold bind at 1.
  rewrite (for_of_push_throws (extracted rt)
                              (fun image => call_Image_load (Image.data image))
                              (extracted_tensor rt) l1 image l2 e).
  - reflexivity.
  - intros a j Ha. apply extracted_returns.
    revert a Ha. now apply Forall_forall.
  - intros j. now apply extracted_throws.
Qed.

(** [createDataset], one step at a time. *)
Lemma createDataset_unfold (categories : list Category.t) (images : list Image.t)
      (journal : list Call) :
  createDataset rt categories images journal
  = match for_of (classified images)
                 (fun xs image => x <- extracted rt image ;; ret (xs ++ [x]))
                 [] journal with
    | (Returned xs, journal1) =>
        match concat xs with
        | Returned x0 =>
            if Z.of_nat (List.length categories) - 1 <? 2
            then (Returned {| success := false; x := x0; y := x0 |},
                  journal1 ++ [call_alert "There must be at least two categories!"])
            else (Returned {| success := true; x := x0;
                              y := oneHot (labels categories (classified images))
                                          (Z.of_nat (List.length categories) - 1) |},
                  journal1)
        | Thrown e => (Thrown e, journal1)
        end
    | (Thrown e, journal1) => (Thrown e, journal1)
    end.
Proof.
  unfold createDataset. unfold bind at 1.
  destruct (for_of (classified images) _ [] journal) as [[xs | e] j1];
    [| reflexivity].
  unfold bind at 1. unfold lift at 1, tidy.
  destruct (concat xs) as [x0 | e]; [| reflexivity].
  destruct (Z.of_nat (List.length categories) - 1 <? 2); reflexivity.
Qed.

End DatasetCalls.

(** X3.  Whatever the dimensions of the decoded image, [extracted] returns
    a single-item batch of shape [1, 224, 224, 3], with 224 * 224 * 3
    entries, all between -1 and 1, after one call to the codec. *)
Theorem extracted_item (rt : Runtime) (image : Image.t) (journal : list Call) :
  decodes rt image ->
  exists t,
    extracted rt image journal
    = (Returned t, journal ++ [call_Image_load (Image.data image)])
    /\ shape t = [1; 224; 224; 3]
    /\ List.length (values t) = item_size
    /\ Forall (fun v => (-1 <= v <= 1)%Q) (values t).
Proof.
  intros Hd. exists (extracted_tensor rt image).
  split; [now apply extracted_returns |].
  destruct (extracted_decodes rt image Hd) as (_ & Hs & Hl & Hr).
  split; [exact Hs | split; [exact Hl | exact Hr]].
Qed.

Lemma extracted_item_witness :
  decodes Sample.runtime Sample.cat_image
  /\ exists t,
      extracted Sample.runtime Sample.cat_image []
      = (Returned t, [call_Image_load "cat.png"])
      /\ shape t = [1; 224; 224; 3].
Proof.
  assert (H : decodes Sample.runtime Sample.cat_image)
    by (apply sample_decodes; discriminate).
  split; [exact H |].
  destruct (extracted_item Sample.runtime Sample.cat_image [] H)
    as (t & Ht & Hs & _).
  exists t. split; [exact Ht | exact Hs].
Defined.

(** X4.  When the codec refuses an image that is not unclassified, the
    images before it having decoded, [createDataset] ends with the
    exception of the codec: the images after it are not handed to the
    codec and no alert is raised.  With at least one trainable category,
    the network fetched and holding the layer looked up, [fit] and
    [evaluate] end with the same exception, the model never run. *)
Theorem createDataset_decode_failure (rt : Runtime) (categories : list Category.t)
        (images : list Image.t) (args : option ModelFitArgs)
        (journal : list Call) (l1 : list Image.t) (image : Image.t)
        (l2 : list Image.t) (e : Exception) :
  classified images = l1 ++ image :: l2 ->
  Forall (decodes rt) l1 ->
  Image_load rt (Image.data image) = Thrown e ->
  createDataset rt categories images journal
  = (Thrown e, journal ++ loads l1 ++ [call_Image_load (Image.data image)])
  /\ (forall net layer,
         loadLayersModel rt resource = Returned net ->
         getLayer net "conv_pw_13_relu" = Returned layer ->
         (2 <= List.length categories)%nat ->
         fit rt images categories args journal
         = (Thrown e,
            (journal ++ [call_loadLayersModel resource])
              ++ loads l1 ++ [call_Image_load (Image.data image)])
         /\ evaluate rt images categories journal
            = (Thrown e,
               (journal ++ [call_loadLayersModel resource])
                 ++ loads l1 ++ [call_Image_load (Image.data image)])).
Proof.
  intros Hsplit Hdec Hload.
  split; [now apply (createDataset_stops rt categories images journal l1 image l2 e) |].
  intros net layer Hnet Hlayer Hlen.
  rewrite fit_journal, evaluate_journal.
  rewrite (createModel_returns rt _ 100 journal net layer)
    by (try assumption; lia).
  cbn [fst]. unfold then_fit, then_evaluate, bind.
  rewrite (createDataset_stops rt categories images _ l1 image l2 e Hsplit Hdec Hload).
  split; reflexivity.
Qed.

Lemma createDataset_decode_failure_witness :
  classified [Sample.cat_image; Sample.new_image; Cases.broken_image;
              Sample.dog_image]
  = [Sample.cat_image] ++ Cases.broken_image :: [Sample.dog_image]
  /\ Forall (decodes Sample.runtime) [Sample.cat_image]
  /\ Image_load Sample.runtime (Image.data Cases.broken_image)
     = Thrown (Error "unable to load image")
  /\ createDataset Sample.runtime Sample.two_categories
                   [Sample.cat_image; Sample.new_image; Cases.broken_image;
                    Sample.dog_image] []
     = (Thrown (Error "unable to load image"),
        [call_Image_load "cat.png"; call_Image_load ""])
  /\ fit Sample.runtime
         [Sample.cat_image; Sample.new_image; Cases.broken_image; Sample.dog_image]
         Sample.two_categories None []
     = (Thrown (Error "unable to load image"),
        [call_loadLayersModel resource; call_Image_load "cat.png";
         call_Image_load ""]).
Proof.
  assert (H1 : classified [Sample.cat_image; Sample.new_image; Cases.broken_image;
                           Sample.dog_image]
               = [Sample.cat_image] ++ Cases.broken_image :: [Sample.dog_image])
    by reflexivity.
  assert (H2 : Forall (decodes Sample.runtime) [Sample.cat_image])
    by (repeat constructor; apply sample_decodes; discriminate).
  assert (H3 : Image_load Sample.runtime (Image.data Cases.broken_image)
               = Thrown (Error "unable to load image")) by reflexivity.
  split; [exact H1 | split; [exact H2 | split; [exact H3 |]]].
  destruct (createDataset_decode_failure
              Sample.runtime Sample.two_categories
              [Sample.cat_image; Sample.new_image; Cases.broken_image;
               Sample.dog_image] None []
              [Sample.cat_image] Cases.broken_image [Sample.dog_image]
              (Error "unable to load image") H1 H2 H3)
    as (Hd & Hfacade).
  split; [exact Hd |].
  assert (Hlen : (2 <= List.length Sample.two_categories)%nat) by (cbn; lia).
  exact (proj1 (Hfacade Sample.mobilenet
                        (pretrained "conv_pw_13_relu"
                                    [None; Some 7; Some 7; Some 256])
                        eq_refl eq_refl Hlen)).
Defined.

Lemma In_prefix {A} (k : nat) (l : list A) (a : A) :
  In a (firstn k l) -> In a l.
Proof.
  intros H. rewrite <- (firstn_skipn k l). apply in_or_app. left. exact H.
Qed.

(** X5.  Whatever happens, the calls [createDataset] makes are calls to
    the codec for a prefix of the images that are not unclassified, in the
    order of the list, followed by at most the alert; the prefix is the
    whole list when a dataset is returned.  An unclassified image is never
    decoded and no model is fetched or run. *)
Theorem createDataset_calls (rt : Runtime) (categories : list Category.t)
        (images : list Image.t) (journal : list Call) :
  exists (k : nat) (rest : list Call),
    snd (createDataset rt categories images journal)
    = journal ++ loads (firstn k (classified images)) ++ rest
    /\ (rest = [] \/ rest = [call_alert "There must be at least two categories!"])
    /\ (forall d, fst (createDataset rt categories images journal) = Returned d ->
                  k = List.length (classified images))
    /\ (forall c, In c (loads (firstn k (classified images))) ->
                  exists image,
                    In image images
                    /\ Image.categoryIdentifier image <> unclassified
                    /\ c = call_Image_load (Image.data image)).
Proof.
  assert (Hin : forall k c,
             In c (loads (firstn k (classified images))) ->
             exists image,
               In image images
               /\ Image.categoryIdentifier image <> unclassified
               /\ c = call_Image_load (Image.data image)).
  { intros k c Hc. unfold loads in Hc. apply in_map_iff in Hc.
    destruct Hc as (image & <- & Hi). apply In_prefix in Hi.
    apply classified_In in Hi. destruct Hi as [Hi Hn].
    exists image. split; [exact Hi | split; [exact Hn | reflexivity]]. }
  destruct (for_of_loads rt (classified images) [] journal) as (k & Hj & Hk).
  rewrite createDataset_unfold.
  destruct (for_of (classified images) _ [] journal) as [[xs | e] j1];
    cbn [snd fst] in Hj, Hk; subst j1.
  - specialize (Hk xs eq_refl).
    destruct (concat xs) as [x0 | e].
    + destruct (Z.of_nat (List.length categories) - 1 <? 2).
      * exists k, [call_alert "There must be at least two categories!"].
        cbn [snd fst]. rewrite <- app_assoc.
        split; [reflexivity | split; [right; reflexivity |]].
        split; [intros; exact Hk | apply Hin].
      * exists k, []. cbn [snd fst]. rewrite app_nil_r.
        split; [reflexivity | split; [left; reflexivity |]].
        split; [intros; exact Hk | apply Hin].
    + exists k, []. cbn [snd fst]. rewrite app_nil_r.
      split; [reflexivity | split; [left; reflexivity |]].
      split; [discriminate | apply Hin].
  - exists k, []. cbn [snd fst]. rewrite app_nil_r.
    split; [reflexivity | split; [left; reflexivity |]].
    split; [discriminate | apply Hin].
Qed.

(** X6.  When at least one image is left after the filter and those
    images decode, the dataset returned is marked as a success exactly when
    there are at least two trainable categories; the alert is raised
    exactly when it is not, and then the label tensor is the input tensor
    itself; on success the label tensor has one row per image and one
    column per trainable category, whatever the categories of the images. *)
Theorem createDataset_outcome (rt : Runtime) (categories : list Category.t)
        (images : list Image.t) (journal : list Call) :
  classified images <> [] ->
  Forall (decodes rt) (classified images) ->
  exists d journal',
    createDataset rt categories images journal = (Returned d, journal')
    /\ (success d = true <-> 2 <= Z.of_nat (List.length categories) - 1)
    /\ journal'
       = journal ++ loads (classified images)
                 ++ (if success d then []
                     else [call_alert "There must be at least two categories!"])
    /\ (success d = false -> y d = x d)
    /\ (success d = true ->
        shape (y d) = [Z.of_nat (count_classified images);
                       Z.of_nat (List.length categories) - 1]
        /\ List.length (values (y d))
           = (count_classified images
              * Z.to_nat (Z.of_nat (List.length categories) - 1))%nat).
Proof.
  intros Hne Hdec.
  pose proof (createDataset_returns rt categories images journal Hne Hdec) as Hr.
  destruct (Z.ltb_spec (Z.of_nat (List.length categories) - 1) 2) as [Hlt | Hge];
    eexists; eexists; (split; [exact Hr |]); cbn [success x y].
  - split; [split; [discriminate | lia] |].
    split; [reflexivity |].
    split; [reflexivity | discriminate].
  - split; [split; [intros _; exact Hge | reflexivity] |].
    split; [now rewrite app_nil_r |].
    split; [discriminate |]. intros _.
    unfold oneHot. cbn [shape values].
    rewrite labels_map, length_map, classified_length.
    split; [reflexivity |].
    rewrite flat_map_constant_length
      with (c := Z.to_nat (Z.of_nat (List.length categories) - 1)).
    + now rewrite length_map, classified_length.
    + intros; apply oneHot_row_length.
Qed.

Lemma createDataset_outcome_witness :
  classified [Sample.bird_image; Sample.new_image] <> []
  /\ Forall (decodes Sample.runtime) (classified [Sample.bird_image; Sample.new_image])
  /\ exists d journal',
      createDataset Sample.runtime Sample.two_categories
                    [Sample.bird_image; Sample.new_image] []
      = (Returned d, journal')
      /\ success d = true
      /\ shape (y d) = [1; 2].
Proof.
  assert (H1 : classified [Sample.bird_image; Sample.new_image] <> [])
    by discriminate.
  assert (H2 : Forall (decodes Sample.runtime)
                      (classified [Sample.bird_image; Sample.new_image])).
  { apply classified_decodes. intros image [<- | [<- | []]] _;
      apply sample_decodes; discriminate. }
  split; [exact H1 | split; [exact H2 |]].
  destruct (createDataset_outcome Sample.runtime Sample.two_categories
                                  [Sample.bird_image; Sample.new_image] [] H1 H2)
    as (d & journal' & Hd & Hs & _ & _ & Hy).
  assert (Hsucc : success d = true) by (apply Hs; discriminate).
  exists d, journal'.
  split; [exact Hd | split; [exact Hsucc | exact (proj1 (Hy Hsucc))]].
Defined.

Lemma createDataset_calls_witness :
  exists (k : nat) (rest : list Call),
    snd (createDataset Sample.runtime Sample.two_categories
                       [Sample.new_image; Sample.cat_image] [])
    = [] ++ loads (firstn k (classified [Sample.new_image; Sample.cat_image])) ++ rest
    /\ (rest = [] \/ rest = [call_alert "There must be at least two categories!"]).
Proof.
  destruct (createDataset_calls Sample.runtime Sample.two_categories
                                [Sample.new_image; Sample.cat_image] [])
    as (k & rest & Hj & Hrest & _).
  exists k, rest. split; [exact Hj | exact Hrest].
Defined.

(** ** The model assembler and the facade *)

(** X7.  When the network cannot be fetched, or lacks the layer looked
    up, [createModel] ends with that exception, and so do [fit] and
    [evaluate], before any image is handed to the codec: the fetch is the
    only call made. *)
Theorem model_failure (rt : Runtime) (images : list Image.t)
        (categories : list Category.t) (args : option ModelFitArgs)
        (journal : list Call) (classes units : Z) (e : Exception) :
  (loadLayersModel rt resource = Thrown e
   \/ exists net, loadLayersModel rt resource = Returned net
                  /\ getLayer net "conv_pw_13_relu" = Thrown e) ->
  createModel rt classes units journal
  = (Thrown e, journal ++ [call_loadLayersModel resource])
  /\ fit rt images categories args journal
     = (Thrown e, journal ++ [call_loadLayersModel resource])
  /\ evaluate rt images categories journal
     = (Thrown e, journal ++ [call_loadLayersModel resource]).
Proof.
  intros H.
  assert (Hm : forall classes units,
             createModel rt classes units journal
             = (Thrown e, journal ++ [call_loadLayersModel resource])).
  { intros c u. unfold createModel, bind, call, lift.
    destruct H as [-> | (net & -> & ->)]; reflexivity. }
  split; [apply Hm |].
  rewrite fit_journal, evaluate_journal, Hm. cbn [fst].
  split; reflexivity.
Qed.

Lemma model_failure_witness :
  (loadLayersModel Cases.offline resource = Thrown (Error "Failed to fetch")
   \/ exists net, loadLayersModel Cases.offline resource = Returned net
                  /\ getLayer net "conv_pw_13_relu"
                     = Thrown (Error "Failed to fetch"))
  /\ (loadLayersModel Cases.truncated resource = Thrown (Error "No such layer")
      \/ exists net, loadLayersModel Cases.truncated resource = Returned net
                     /\ getLayer net "conv_pw_13_relu"
                        = Thrown (Error "No such layer"))
  /\ fit Cases.offline [Sample.cat_image; Sample.dog_image]
         Sample.two_categories None []
     = (Thrown (Error "Failed to fetch"), [call_loadLayersModel resource])
  /\ evaluate Cases.truncated [Sample.cat_image; Sample.dog_image]
              Sample.two_categories []
     = (Thrown (Error "No such layer"), [call_loadLayersModel resource]).
Proof.
  assert (H1 : loadLayersModel Cases.offline resource
               = Thrown (Error "Failed to fetch")
               \/ exists net, loadLayersModel Cases.offline resource = Returned net
                              /\ getLayer net "conv_pw_13_relu"
                                 = Thrown (Error "Failed to fetch"))
    by (left; reflexivity).
  assert (H2 : loadLayersModel Cases.truncated resource
               = Thrown (Error "No such layer")
               \/ exists net, loadLayersModel Cases.truncated resource = Returned net
                              /\ getLayer net "conv_pw_13_relu"
                                 = Thrown (Error "No such layer"))
    by (right; eexists; split; reflexivity).
  split; [exact H1 | split; [exact H2 |]].
  destruct (model_failure Cases.offline [Sample.cat_image; Sample.dog_image]
                          Sample.two_categories None [] 2 100 _ H1)
    as (_ & Hfit & _).
  destruct (model_failure Cases.truncated [Sample.cat_image; Sample.dog_image]
                          Sample.two_categories None [] 2 100 _ H2)
    as (_ & _ & Hev).
  split; [exact Hfit | exact Hev].
Defined.

(** X8.  With at least two trainable categories, at least one image left
    after the filter, those images decoding and the network fetched,
    [fit] fetches the network, decodes the images in order, and calls the
    fit operation of the model exactly once, last, on the assembled model,
    the input batch, the one-hot labels and the options given (the empty
    options when none are given).  It returns what that operation returns
    and ends with its exception when it throws. *)
Theorem fit_trains (rt : Runtime) (images : list Image.t)
        (categories : list Category.t) (args : option ModelFitArgs)
        (journal : list Call) (net : LayersModel) (layer : Layer) :
  2 <= Z.of_nat (List.length categories) - 1 ->
  classified images <> [] ->
  Forall (decodes rt) (classified images) ->
  loadLayersModel rt resource = Returned net ->
  getLayer net "conv_pw_13_relu" = Returned layer ->
  fit rt images categories args journal
  = (match model_fit rt
             (assembled net layer (Z.of_nat (List.length categories) - 1) 100)
             (inputs rt (classified images))
             (oneHot (labels categories (classified images))
                     (Z.of_nat (List.length categories) - 1))
             (match args with
              | Some a => a
              | None => {| batchSize := None; epochs := None |}
              end) with
     | Returned history => Returned (Some history)
     | Thrown e => Thrown e
     end,
     (journal ++ [call_loadLayersModel resource])
       ++ loads (classified images)
       ++ [call_fit (assembled net layer (Z.of_nat (List.length categories) - 1) 100)
                    (inputs rt (classified images))
                    (oneHot (labels categories (classified images))
                            (Z.of_nat (List.length categories) - 1))
                    (match args with
                     | Some a => a
                     | None => {| batchSize := None; epochs := None |}
                     end)]).
Proof.
  intros Hge Hne Hdec Hnet Hlayer.
  rewrite fit_journal.
  rewrite (createModel_returns rt _ 100 journal net layer)
    by (try assumption; lia).
  cbn [fst]. unfold then_fit, bind.
  rewrite (createDataset_enough rt categories images _ Hge Hne Hdec).
  cbn [success negb x y]. unfold call, ret, or_empty.
  destruct (model_fit rt _ _ _ _); rewrite <- app_assoc; reflexivity.
Qed.

Lemma fit_trains_witness :
  2 <= Z.of_nat (List.length Sample.two_categories) - 1
  /\ classified [Sample.cat_image; Sample.dog_image] <> []
  /\ Forall (decodes Sample.runtime) (classified [Sample.cat_image; Sample.dog_image])
  /\ loadLayersModel Sample.runtime resource = Returned Sample.mobilenet
  /\ getLayer Sample.mobilenet "conv_pw_13_relu"
     = Returned (pretrained "conv_pw_13_relu" [None; Some 7; Some 7; Some 256])
  /\ fst (fit Sample.runtime [Sample.cat_image; Sample.dog_image]
              Sample.two_categories None [])
     = Returned (Some {| history := [] |}).
Proof.
  assert (H1 : 2 <= Z.of_nat (List.length Sample.two_categories) - 1)
    by discriminate.
  assert (H2 : classified [Sample.cat_image; Sample.dog_image] <> [])
    by discriminate.
  assert (H3 : Forall (decodes Sample.runtime)
                      (classified [Sample.cat_image; Sample.dog_image])).
  { apply classified_decodes. intros image [<- | [<- | []]] _;
      apply sample_decodes; discriminate. }
  assert (H4 : loadLayersModel Sample.runtime resource = Returned Sample.mobilenet)
    by reflexivity.
  assert (H5 : getLayer Sample.mobilenet "conv_pw_13_relu"
               = Returned (pretrained "conv_pw_13_relu"
                                      [None; Some 7; Some 7; Some 256]))
    by reflexivity.
  split; [exact H1 | split; [exact H2 | split; [exact H3 |
    split; [exact H4 | split; [exact H5 |]]]]].
  rewrite (fit_trains Sample.runtime [Sample.cat_image; Sample.dog_image]
                      Sample.two_categories None [] Sample.mobilenet _
                      H1 H2 H3 H4 H5).
  reflexivity.
Defined.

(** X9.  Under the same conditions [evaluate] fetches the network,
    decodes the images in order, and calls the evaluate operation of the
    model exactly once, last, on the assembled model, the input batch and
    the one-hot labels.  It returns what that operation returns and ends
    with its exception when it throws. *)
Theorem evaluate_scores (rt : Runtime) (images : list Image.t)
        (categories : list Category.t) (journal : list Call)
        (net : LayersModel) (layer : Layer) :
  2 <= Z.of_nat (List.length categories) - 1 ->
  classified images <> [] ->
  Forall (decodes rt) (classified images) ->
  loadLayersModel rt resource = Returned net ->
  getLayer net "conv_pw_13_relu" = Returned layer ->
  evaluate rt images categories journal
  = (match model_evaluate rt
             (assembled net layer (Z.of_nat (List.length categories) - 1) 100)
             (inputs rt (classified images))
             (oneHot (labels categories (classified images))
                     (Z.of_nat (List.length categories) - 1)) with
     | Returned scalars => Returned (Some scalars)
     | Thrown e => Thrown e
     end,
     (journal ++ [call_loadLayersModel resource])
       ++ loads (classified images)
       ++ [call_evaluate
             (assembled net layer (Z.of_nat (List.length categories) - 1) 100)
             (inputs rt (classified images))
             (oneHot (labels categories (classified images))
                     (Z.of_nat (List.length categories) - 1))]).
Proof.
  intros Hge Hne Hdec Hnet Hlayer.
  rewrite evaluate_journal.
  rewrite (createModel_returns rt _ 100 journal net layer)
    by (try assumption; lia).
  cbn [fst]. unfold then_evaluate, bind.
  rewrite (createDataset_enough rt categories images _ Hge Hne Hdec).
  cbn [success negb x y]. unfold call, ret.
  destruct (model_evaluate rt _ _ _); rewrite <- app_assoc; reflexivity.
Qed.

Lemma evaluate_scores_witness :
  2 <= Z.of_nat (List.length Sample.two_categories) - 1
  /\ classified [Sample.cat_image; Sample.dog_image] <> []
  /\ Forall (decodes Sample.runtime) (classified [Sample.cat_image; Sample.dog_image])
  /\ loadLayersModel Sample.runtime resource = Returned Sample.mobilenet
  /\ getLayer Sample.mobilenet "conv_pw_13_relu"
     = Returned (pretrained "conv_pw_13_relu" [None; Some 7; Some 7; Some 256])
  /\ fst (evaluate Sample.runtime [Sample.cat_image; Sample.dog_image]
                   Sample.two_categories [])
     = Returned (Some [0%Q; 0%Q]).
Proof.
  assert (H1 : 2 <= Z.of_nat (List.length Sample.two_categories) - 1)
    by discriminate.
  assert (H2 : classified [Sample.cat_image; Sample.dog_image] <> [])
    by discriminate.
  assert (H3 : Forall (decodes Sample.runtime)
                      (classified [Sample.cat_image; Sample.dog_image])).
  { apply classified_decodes. intros image [<- | [<- | []]] _;
      apply sample_decodes; discriminate. }
  assert (H4 : loadLayersModel Sample.runtime resource = Returned Sample.mobilenet)
    by reflexivity.
  assert (H5 : getLayer Sample.mobilenet "conv_pw_13_relu"
               = Returned (pretrained "conv_pw_13_relu"
                                      [None; Some 7; Some 7; Some 256]))
    by reflexivity.
  split; [exact H1 | split; [exact H2 | split; [exact H3 |
    split; [exact H4 | split; [exact H5 |]]]]].
  rewrite (evaluate_scores Sample.runtime [Sample.cat_image; Sample.dog_image]
                           Sample.two_categories [] Sample.mobilenet _
                           H1 H2 H3 H4 H5).
  reflexivity.
Defined.

(** ** Labels and the position of the unclassified category *)

(** X10.  The label of an image is the position of its category minus
    one, whatever sits at position 0.  An image that is not unclassified
    and whose category is the first of the list gets position 0 and label
    -1; no error is raised, and with at least two trainable categories the
    dataset is a success in which the row of the image holds no 1. *)
Theorem createDataset_first_position (rt : Runtime) (categories : list Category.t)
        (images : list Image.t) (journal : list Call) (i : nat)
        (image : Image.t) (first : Category.t) :
  Forall (decodes rt) (classified images) ->
  nth_error (classified images) i = Some image ->
  nth_error categories 0 = Some first ->
  Category.identifier first = Image.categoryIdentifier image ->
  findCategoryIndex categories (Image.categoryIdentifier image) = 0
  /\ nth_error (labels categories (classified images)) i = Some (-1)
  /\ exists d journal',
      createDataset rt categories images journal = (Returned d, journal')
      /\ (2 <= Z.of_nat (List.length categories) - 1 ->
          success d = true
          /\ forall j,
              0 <= j < Z.of_nat (List.length categories) - 1 ->
              nth_error (item (Z.to_nat (Z.of_nat (List.length categories) - 1))
                              (y d) i)
                        (Z.to_nat j)
              = Some 0%Q).
Proof.
  intros Hdec Hi Hfirst Hid.
  assert (Hidx : findCategoryIndex categories (Image.categoryIdentifier image) = 0).
  { destruct categories as [| c rest]; [discriminate |].
    cbn [nth_error] in Hfirst. injection Hfirst as ->.
    unfold findCategoryIndex, findIndex. cbn [findIndex_from].
    apply String.eqb_eq in Hid. now rewrite Hid. }
  assert (Hlab : nth_error (labels categories (classified images)) i = Some (-1)).
  { rewrite labels_map, nth_error_map, Hi. cbn [option_map]. now rewrite Hidx. }
  assert (Hne : classified images <> []).
  { intros E. rewrite E in Hi. destruct i; discriminate. }
  split; [exact Hidx | split; [exact Hlab |]].
  pose proof (createDataset_returns rt categories images journal Hne Hdec) as Hr.
  destruct (Z.ltb_spec (Z.of_nat (List.length categories) - 1) 2) as [Hlt | Hge];
    eexists; eexists; (split; [exact Hr |]); cbn [success y]; intros H2.
  - lia.
  - split; [reflexivity |]. intros j Hj.
    rewrite (oneHot_item _ _ i (-1) Hlab).
    rewrite oneHot_row_nth by assumption.
    destruct (Z.eqb_spec (-1) j); [lia | reflexivity].
Qed.

Lemma createDataset_first_position_witness :
  Forall (decodes Sample.runtime) (classified [Sample.cat_image])
  /\ nth_error (classified [Sample.cat_image]) 0 = Some Sample.cat_image
  /\ nth_error Cases.unconventional 0 = Some (Sample.category Sample.cat 0)
  /\ Category.identifier (Sample.category Sample.cat 0)
     = Image.categoryIdentifier Sample.cat_image
  /\ nth_error (labels Cases.unconventional (classified [Sample.cat_image])) 0
     = Some (-1)
  /\ exists d journal',
      createDataset Sample.runtime Cases.unconventional [Sample.cat_image] []
      = (Returned d, journal')
      /\ success d = true.
Proof.
  assert (H1 : Forall (decodes Sample.runtime) (classified [Sample.cat_image])).
  { apply classified_decodes. intros image [<- | []] _.
    apply sample_decodes. discriminate. }
  assert (H2 : nth_error (classified [Sample.cat_image]) 0 = Some Sample.cat_image)
    by reflexivity.
  assert (H3 : nth_error Cases.unconventional 0 = Some (Sample.category Sample.cat 0))
    by reflexivity.
  assert (H4 : Category.identifier (Sample.category Sample.cat 0)
               = Image.categoryIdentifier Sample.cat_image) by reflexivity.
  split; [exact H1 | split; [exact H2 | split; [exact H3 | split; [exact H4 |]]]].
  destruct (createDataset_first_position
              Sample.runtime Cases.unconventional [Sample.cat_image] []
              0%nat Sample.cat_image _ H1 H2 H3 H4)
    as (_ & Hlab & d & journal' & Hd & Hsucc).
  split; [exact Hlab |].
  exists d, journal'. split; [exact Hd |].
  apply Hsucc. discriminate.
Defined.

(** ** Composition *)

Lemma classified_app (l1 l2 : list Image.t) :
  classified (l1 ++ l2) = classified l1 ++ classified l2.
Proof. unfold classified. apply filter_app. Qed.

Lemma inputs_app (rt : Runtime) (l1 l2 : list Image.t) :
  values (inputs rt (l1 ++ l2)) = values (inputs rt l1) ++ values (inputs rt l2)
  /\ batch (inputs rt (l1 ++ l2)) = batch (inputs rt l1) + batch (inputs rt l2).
Proof.
  unfold inputs, batch. cbn [values shape hd].
  rewrite map_app, flat_map_app, length_app. split; [reflexivity | lia].
Qed.

Lemma oneHot_app (l1 l2 : list Z) (depth : Z) :
  values (oneHot (l1 ++ l2) depth)
  = values (oneHot l1 depth) ++ values (oneHot l2 depth).
Proof. unfold oneHot. cbn [values]. apply flat_map_app. Qed.

Lemma labels_app (categories : list Category.t) (l1 l2 : list Image.t) :
  labels categories (l1 ++ l2) = labels categories l1 ++ labels categories l2.
Proof. rewrite !labels_map. apply map_app. Qed.

(** X11.  The dataset of two image lists put end to end is the datasets
    of the two lists put end to end: same verdict, the batch sizes add up,
    and the entries of the input tensor and of the label tensor are those
    of the first dataset followed by those of the second. *)
Theorem createDataset_append (rt : Runtime) (categories : list Category.t)
        (images1 images2 : list Image.t) (journal : list Call) :
  classified images1 <> [] ->
  classified images2 <> [] ->
  Forall (decodes rt) (classified images1) ->
  Forall (decodes rt) (classified images2) ->
  exists d1 d2 d journal1 journal2 journal',
    createDataset rt categories images1 journal = (Returned d1, journal1)
    /\ createDataset rt categories images2 journal = (Returned d2, journal2)
    /\ createDataset rt categories (images1 ++ images2) journal
       = (Returned d, journal')
    /\ success d = success d1
    /\ success d = success d2
    /\ batch (x d) = batch (x d1) + batch (x d2)
    /\ values (x d) = values (x d1) ++ values (x d2)
    /\ values (y d) = values (y d1) ++ values (y d2).
Proof.
  intros Hne1 Hne2 Hdec1 Hdec2.
  assert (Hne : classified (images1 ++ images2) <> []).
  { rewrite classified_app. intros E. apply app_eq_nil in E. now destruct E. }
  assert (Hdec : Forall (decodes rt) (classified (images1 ++ images2))).
  { rewrite classified_app. apply Forall_app. split; assumption. }
  pose proof (createDataset_returns rt categories images1 journal Hne1 Hdec1) as H1.
  pose proof (createDataset_returns rt categories images2 journal Hne2 Hdec2) as H2.
  pose proof (createDataset_returns rt categories (images1 ++ images2) journal
                                    Hne Hdec) as H.
  destruct (inputs_app rt (classified images1) (classified images2)) as [Hv Hb].
  destruct (Z.of_nat (List.length categories) - 1 <? 2);
    do 6 eexists;
    (split; [exact H1 |]); (split; [exact H2 |]); (split; [exact H |]);
    cbn [success x y]; rewrite classified_app;
    (split; [reflexivity |]); (split; [reflexivity |]);
    (split; [exact Hb |]); (split; [exact Hv |]).
  - exact Hv.
  - rewrite labels_app. apply oneHot_app.
Qed.

Lemma createDataset_append_witness :
  classified [Sample.cat_image] <> []
  /\ classified [Sample.new_image; Sample.dog_image] <> []
  /\ Forall (decodes Sample.runtime) (classified [Sample.cat_image])
  /\ Forall (decodes Sample.runtime) (classified [Sample.new_image; Sample.dog_image])
  /\ exists d1 d2 d journal1 journal2 journal',
      createDataset Sample.runtime Sample.two_categories [Sample.cat_image] []
      = (Returned d1, journal1)
      /\ createDataset Sample.runtime Sample.two_categories
                       [Sample.new_image; Sample.dog_image] []
         = (Returned d2, journal2)
      /\ createDataset Sample.runtime Sample.two_categories
                       ([Sample.cat_image] ++ [Sample.new_image; Sample.dog_image]) []
         = (Returned d, journal')
      /\ values (y d) = values (y d1) ++ values (y d2).
Proof.
  assert (H1 : classified [Sample.cat_image] <> []) by discriminate.
  assert (H2 : classified [Sample.new_image; Sample.dog_image] <> [])
    by discriminate.
  assert (H3 : Forall (decodes Sample.runtime) (classified [Sample.cat_image])).
  { apply classified_decodes. intros image [<- | []] _.
    apply sample_decodes. discriminate. }
  assert (H4 : Forall (decodes Sample.runtime)
                      (classified [Sample.new_image; Sample.dog_image])).
  { apply classified_decodes. intros image [<- | [<- | []]] _;
      apply sample_decodes; discriminate. }
  split; [exact H1 | split; [exact H2 | split; [exact H3 | split; [exact H4 |]]]].
  destruct (createDataset_append Sample.runtime Sample.two_categories
                                 [Sample.cat_image]
                                 [Sample.new_image; Sample.dog_image] []
                                 H1 H2 H3 H4)
    as (d1 & d2 & d & j1 & j2 & j & Hd1 & Hd2 & Hd & _ & _ & _ & _ & Hy).
  exists d1, d2, d, j1, j2, j.
  split; [exact Hd1 | split; [exact Hd2 | split; [exact Hd | exact Hy]]].
Defined.

(** ** What the result does not depend on *)

(** X12.  Two image lists that leave the same images after the filter
    give the same result and the same calls, for [createDataset], [fit]
    and [evaluate]: adding or removing unclassified images, anywhere in
    the list, changes nothing. *)
Theorem unclassified_ignored (rt : Runtime) (categories : list Category.t)
        (images1 images2 : list Image.t) (args : option ModelFitArgs)
        (journal : list Call) :
  classified images1 = classified images2 ->
  createDataset rt categories images1 journal
  = createDataset rt categories images2 journal
  /\ fit rt images1 categories args journal
     = fit rt images2 categories args journal
  /\ evaluate rt images1 categories journal
     = evaluate rt images2 categories journal.
Proof.
  intros H.
  assert (Hd : forall j, createDataset rt categories images1 j
                         = createDataset rt categories images2 j).
  { intros j. rewrite !createDataset_unfold, H. reflexivity. }
  split; [apply Hd |].
  split.
  - rewrite !fit_unfold. apply bind_ext_r. intros m j.
    unfold then_fit. apply bind_ext_l. apply Hd.
  - rewrite !evaluate_unfold. apply bind_ext_r. intros m j.
    unfold then_evaluate. apply bind_ext_l. apply Hd.
Qed.

Lemma unclassified_ignored_witness :
  classified [Sample.new_image; Sample.cat_image; Sample.new_image;
              Sample.dog_image; Sample.new_image]
  = classified [Sample.cat_image; Sample.dog_image]
  /\ fit Sample.runtime
         [Sample.new_image; Sample.cat_image; Sample.new_image;
          Sample.dog_image; Sample.new_image]
         Sample.two_categories None []
     = fit Sample.runtime [Sample.cat_image; Sample.dog_image]
           Sample.two_categories None [].
Proof.
  assert (H : classified [Sample.new_image; Sample.cat_image; Sample.new_image;
                          Sample.dog_image; Sample.new_image]
              = classified [Sample.cat_image; Sample.dog_image]) by reflexivity.
  split; [exact H |].
  destruct (unclassified_ignored Sample.runtime Sample.two_categories _ _ None [] H)
    as (_ & Hfit & _).
  exact Hfit.
Defined.

Lemma findCategoryIndex_same (categories1 categories2 : list Category.t)
      (identifier : string) :
  Forall2 same_identifier categories1 categories2 ->
  findCategoryIndex categories1 identifier
  = findCategoryIndex categories2 identifier.
Proof.
  intros H. unfold findCategoryIndex, findIndex. generalize 0.
  induction H as [| a b l1 l2 Hab _ IH]; intros k; [reflexivity |].
  cbn [findIndex_from]. unfold same_identifier in Hab. rewrite Hab.
  destruct (String.eqb (Category.identifier b) identifier); [reflexivity | apply IH].
Qed.

Lemma labels_same (categories1 categories2 : list Category.t)
      (images : list Image.t) :
  Forall2 same_identifier categories1 categories2 ->
  labels categories1 images = labels categories2 images.
Proof.
  intros H. rewrite !labels_map. apply map_ext. intros image.
  now rewrite (findCategoryIndex_same categories1 categories2 _ H).
Qed.

(** X13.  Of a category only the identifier and the position in the list
    are read.  Two category lists with the same identifiers in the same
    order give the same result and the same calls, for [createDataset],
    [fit] and [evaluate], whatever the colours, descriptions, visibilities
    and [index] fields: the label comes from the position in the list, not
    from [index]. *)
Theorem category_fields_unread (rt : Runtime)
        (categories1 categories2 : list Category.t) (images : list Image.t)
        (args : option ModelFitArgs) (journal : list Call) :
  Forall2 same_identifier categories1 categories2 ->
  createDataset rt categories1 images journal
  = createDataset rt categories2 images journal
  /\ fit rt images categories1 args journal
     = fit rt images categories2 args journal
  /\ evaluate rt images categories1 journal
     = evaluate rt images categories2 journal.
Proof.
  intros H.
  pose proof (Forall2_length H) as Hlen.
  assert (Hd : forall j, createDataset rt categories1 images j
                         = createDataset rt categories2 images j).
  { intros j. rewrite !createDataset_unfold.
    rewrite (labels_same categories1 categories2 _ H), Hlen. reflexivity. }
  split; [apply Hd |].
  split.
  - rewrite !fit_unfold, Hlen. apply bind_ext_r. intros m j.
    unfold then_fit. apply bind_ext_l. apply Hd.
  - rewrite !evaluate_unfold, Hlen. apply bind_ext_r. intros m j.
    unfold then_evaluate. apply bind_ext_l. apply Hd.
Qed.

Lemma category_fields_unread_witness :
  Forall2 same_identifier Sample.two_categories Cases.repainted
  /\ fit Sample.runtime [Sample.cat_image; Sample.dog_image]
         Sample.two_categories None []
     = fit Sample.runtime [Sample.cat_image; Sample.dog_image]
           Cases.repainted None [].
Proof.
  assert (H : Forall2 same_identifier Sample.two_categories Cases.repainted)
    by (repeat constructor).
  split; [exact H |].
  destruct (category_fields_unread Sample.runtime Sample.two_categories
                                   Cases.repainted
                                   [Sample.cat_image; Sample.dog_image] None [] H)
    as (_ & Hfit & _).
  exact Hfit.
Defined.

(** X14.  With at least two trainable categories, when at least one
    image is left after the filter and those images decode, the label
    tensor [createDataset] returns is the one-hot encoding of one label per
    image kept, and every label lies between -2 and the number of trainable
    categories minus one: a label never points past the last column of the
    label tensor. *)
Theorem labels_bounds (rt : Runtime) (categories : list Category.t)
        (images : list Image.t) (journal : list Call) :
  2 <= Z.of_nat (List.length categories) - 1 ->
  classified images <> [] ->
  Forall (decodes rt) (classified images) ->
  exists d journal' ys,
    createDataset rt categories images journal = (Returned d, journal')
    /\ y d = oneHot ys (Z.of_nat (List.length categories) - 1)
    /\ List.length ys = count_classified images
    /\ Forall (fun label => -2 <= label < Z.of_nat (List.length categories) - 1) ys
    /\ (forall i image,
           nth_error (classified images) i = Some image ->
           nth_error ys i
           = Some (findCategoryIndex categories
                                     (Image.categoryIdentifier image) - 1)).
Proof.
  intros Hge Hne Hdec.
  eexists. eexists. exists (labels categories (classified images)).
  split; [now apply createDataset_enough |].
  cbn [y]. split; [reflexivity |].
  rewrite labels_map.
  split; [now rewrite length_map, classified_length |].
  split.
  - apply Forall_forall. intros label Hl.
    apply in_map_iff in Hl. destruct Hl as (image & <- & _).
    destruct (identifier_listed_dec categories (Image.categoryIdentifier image))
      as [Hocc | Habs].
    + destruct (findCategoryIndex_present categories _ Hocc)
        as (n & category & -> & Hn & _).
      assert ((n < List.length categories)%nat)
        by (apply nth_error_Some; congruence).
      lia.
    + rewrite (findCategoryIndex_absent categories _ Habs). lia.
  - intros i image Hi. rewrite nth_error_map, Hi. reflexivity.
Qed.

Lemma labels_bounds_witness :
  2 <= Z.of_nat (List.length Sample.two_categories) - 1
  /\ classified [Sample.bird_image; Sample.dog_image] <> []
  /\ Forall (decodes Sample.runtime) (classified [Sample.bird_image; Sample.dog_image])
  /\ exists d journal' ys,
      createDataset Sample.runtime Sample.two_categories
                    [Sample.bird_image; Sample.dog_image] []
      = (Returned d, journal')
      /\ y d = oneHot ys 2
      /\ nth_error ys 0 = Some (-2)
      /\ nth_error ys 1 = Some 1.
Proof.
  assert (H1 : 2 <= Z.of_nat (List.length Sample.two_categories) - 1)
    by discriminate.
  assert (H2 : classified [Sample.bird_image; Sample.dog_image] <> [])
    by discriminate.
  assert (H3 : Forall (decodes Sample.runtime)
                      (classified [Sample.bird_image; Sample.dog_image])).
  { apply classified_decodes. intros image [<- | [<- | []]] _;
      apply sample_decodes; discriminate. }
  split; [exact H1 | split; [exact H2 | split; [exact H3 |]]].
  destruct (labels_bounds Sample.runtime Sample.two_categories
                          [Sample.bird_image; Sample.dog_image] [] H1 H2 H3)
    as (d & journal' & ys & Hd & Hy & _ & _ & Hnth).
  exists d, journal', ys.
  split; [exact Hd | split; [exact Hy |]].
  split; [exact (Hnth 0%nat Sample.bird_image eq_refl)
         | exact (Hnth 1%nat Sample.dog_image eq_refl)].
Defined.
